(** * The scraper worker: fetch, retry, normalise, store

    A shallow embedding of [scraper/src/worker.py].  The worker receives a
    message body, asks the brokerage API for quotes or popularity counts, and
    writes the normalised documents to the document store.  Everything the
    outside world decides (what the API answers, what the clock shows, whether
    a bulk write raises) is read from a script of attempts; everything the
    worker does to the outside world is recorded as a trace of events. *)

From Stdlib Require Import String Ascii List ZArith QArith Bool Arith Lia.
Import ListNotations.
Local Open Scope string_scope.
Local Open Scope list_scope.
Set Warnings "-register-all".

(** ** Python values

    The values the worker handles: decoded JSON ([None], booleans, integers,
    strings, lists, dicts with string keys) and the [datetime] objects it puts
    into documents.  A dict keeps its keys in insertion order, as Python's
    does; numbers are the integers, the only kind the worker looks into. *)

Inductive value : Type :=
| VNone
| VBool (b : bool)
| VInt (n : Z)
| VStr (s : string)
| VList (l : list value)
| VDict (d : list (string * value))
| VDatetime (stamp : Z).

Definition dict : Type := list (string * value).

(** One entry of [BulkWriteError.details["writeErrors"]]. *)
Record write_error : Type := mk_write_error {
  we_index : nat;
  we_code : Z;
  we_errmsg : string
}.

(** The exception classes that can reach the worker's [except] clauses, raised
    by the worker's own lookups or by the libraries it calls ([requests],
    [Robinhood], [pymongo]).  None of them is a subclass of another one of
    them, so an [except] clause selects by equality of the class. *)
Inductive exn : Type :=
| KeyError
| TypeError
| AttributeError
| ValueError
| UnboundLocalError
| JSONDecodeError
| ReadTimeout
| ConnectionError
| InvalidTickerSymbol
| InvalidOperation
| RecursionError
| BulkWriteError (writeErrors : list write_error).

(** A computation without effects that may raise. *)
Definition result (A : Type) : Type := (exn + A)%type.

Definition rbind {A B : Type} (m : result A) (k : A -> result B) : result B :=
  match m with
  | inl e => inl e
  | inr a => k a
  end.

Notation "x <~ m ;; k" := (rbind m (fun x => k))
  (at level 61, m at next level, right associativity).

(** [list(map(f, xs))]: the first element on which [f] raises ends the map. *)
Fixpoint map_raising {A B : Type} (f : A -> result B) (xs : list A)
  : result (list B) :=
  match xs with
  | [] => inr []
  | x :: xs' =>
      y <~ f x ;;
      ys <~ map_raising f xs' ;;
      inr (y :: ys)
  end.

(** [functools.reduce(f, xs, acc)]. *)
Fixpoint reduce {A B : Type} (f : B -> A -> result B) (xs : list A) (acc : B)
  : result B :=
  match xs with
  | [] => inr acc
  | x :: xs' =>
      acc' <~ f acc x ;;
      reduce f xs' acc'
  end.

(** ** Dict and value operations *)

Fixpoint dict_get (k : string) (d : dict) : option value :=
  match d with
  | [] => None
  | (k', v) :: d' => if String.eqb k k' then Some v else dict_get k d'
  end.

(** [d[k] = v]: an existing key keeps its place, a new key goes last. *)
Fixpoint dict_set (k : string) (v : value) (d : dict) : dict :=
  match d with
  | [] => [(k, v)]
  | (k', v') :: d' =>
      if String.eqb k k' then (k', v) :: d' else (k', v') :: dict_set k v d'
  end.

Definition dict_keys (d : dict) : list string := map fst d.

(** [{**base, **extra}]: the entries of [extra] are set in order. *)
Definition dict_update (base extra : dict) : dict :=
  fold_left (fun acc kv => dict_set (fst kv) (snd kv) acc) extra base.

(** [v[k]] for a string key [k]. *)
Definition subscript (v : value) (k : string) : result value :=
  match v with
  | VDict d =>
      match dict_get k d with
      | Some x => inr x
      | None => inl KeyError
      end
  | _ => inl TypeError
  end.

(** [v.get(k)]. *)
Definition py_get (v : value) (k : string) : result value :=
  match v with
  | VDict d =>
      match dict_get k d with
      | Some x => inr x
      | None => inr VNone
      end
  | _ => inl AttributeError
  end.

(** Truth value of [v], as [not v] and [if v] test it. *)
Definition truthy (v : value) : bool :=
  match v with
  | VNone => false
  | VBool b => b
  | VInt n => negb (Z.eqb n 0)
  | VStr s => negb (String.eqb s "")
  | VList l => match l with [] => false | _ :: _ => true end
  | VDict d => match d with [] => false | _ :: _ => true end
  | VDatetime _ => true
  end.

(** [v != None]. *)
Definition not_none (v : value) : bool :=
  match v with
  | VNone => false
  | _ => true
  end.

(** The items a [for], [filter] or [reduce] sees when it iterates [v]. *)
Definition py_iter (v : value) : result (list value) :=
  match v with
  | VList l => inr l
  | VDict d => inr (map (fun kv => VStr (fst kv)) d)
  | VStr s =>
      inr (map (fun c => VStr (String c EmptyString)) (list_ascii_of_string s))
  | _ => inl TypeError
  end.

(** [needle in hay] on strings. *)
Fixpoint contains (needle hay : string) : bool :=
  if String.prefix needle hay then true
  else match hay with
       | EmptyString => false
       | String _ hay' => contains needle hay'
       end.

(** ** The outside world

    What the worker does is a trace of events, in program order. *)

(** [pymongo.operations.UpdateOne(filter, update)] as the worker builds it:
    the filter is [{"instrument_id": ...}], the update is [{"$set": data}]. *)
Record UpdateOne : Type := mk_UpdateOne {
  uo_instrument_id : string;
  uo_set : dict
}.

(** The lines the worker prints, with what they are formatted from. *)
Inductive log_line : Type :=
| LogPopularityDone
| LogQuoteDone
| LogPopularityMap (m : dict)
| LogQuotes (formatted : list value)
| LogUnhandledWrite
| LogWriteError (err : write_error)
| LogUnexpectedPopularity (res : value)
| LogRes (res : value)
| LogPopularityCooldown (seconds : Q)
| LogPopularityTimeout
| LogGarbage
| LogHtml
| LogUnexpectedQuote (res : value)
| LogQuoteCooldown (seconds : Q)
| LogBadSymbols (symbols : string)
| LogQuoteTimeout.

Inductive event : Type :=
| EvPrint (line : log_line)
| EvSetQuotesFinished
| EvSetPopularitiesFinished
| EvQuoteData (symbols : string)
| EvGetUrl (url : string)
| EvSleep (seconds : Q)
| EvIndexBulkWrite (ops : list UpdateOne)
| EvInsertMany (ordered : bool) (documents : list value).

(** What the world answers during one pass through an entry point's [try]
    block: the API call returns a decoded body or raises, the clock is read
    once, and each of the two bulk writes returns or raises. *)
Record attempt : Type := mk_attempt {
  api_reply : result value;
  clock : Z;
  index_reply : option exn;
  insert_reply : option exn
}.

(** An effectful computation: the events it emitted, then how it ended. *)
Definition M (A : Type) : Type := (list event * result A)%type.

Definition ret {A : Type} (a : A) : M A := ([], inr a).

Definition raise {A : Type} (e : exn) : M A := ([], inl e).

Definition bind {A B : Type} (m : M A) (k : A -> M B) : M B :=
  match m with
  | (t, inl e) => (t, inl e)
  | (t, inr a) => let (t', r) := k a in (t ++ t', r)
  end.

Definition lift {A : Type} (r : result A) : M A := ([], r).

Definition emit (ev : event) : M unit := ([ev], inr tt).

(** A call into the world that returns nothing of interest or raises. *)
Definition reply (r : option exn) : M unit :=
  match r with
  | None => ret tt
  | Some e => raise e
  end.

Notation "x <- m ;; k" := (bind m (fun x => k))
  (at level 61, m at next level, right associativity).
Notation "m ;; k" := (bind m (fun _ => k))
  (at level 61, right associativity).

(** How a call of an entry point ends.  [Awaiting] is the model's own: the
    script holds no answer for the API call just made. *)
Inductive final : Type :=
| Returned
| Raised (e : exn)
| Awaiting.

Definition run : Type := (list event * final)%type.

(** Run [m], then continue with the run [k] unless [m] raised. *)
Definition and_then {A : Type} (m : M A) (k : A -> run) : run :=
  match m with
  | (t, inl e) => (t, Raised e)
  | (t, inr a) => let (t', f) := k a in (t ++ t', f)
  end.

Definition seconds_of (n : Z) : Q := Qmake n 1.

Definition sleep (seconds : Q) : M unit := emit (EvSleep seconds).

Definition print (line : log_line) : M unit := emit (EvPrint line).

(** ** Helpers imported from [common] and [utils]

    [worker.py] imports these; their bodies are not part of the worker, so the
    worker is modelled over any implementation of them. *)
Class Utils : Type := {
  parse_throttle_res : value -> result Q;
  parse_instrument_url : value -> result string;
  parse_updated_at : value -> result value;
  pluck : list string -> value -> result dict;
  DESIRED_QUOTE_KEYS : list string
}.

(** [try: m except ...: h]. *)
Definition try_except {A : Type} (m : M A) (h : exn -> M A) : M A :=
  match m with
  | (t, inl e) => let (t', r) := h e in (t ++ t', r)
  | (t, inr a) => (t, inr a)
  end.

(** [for x in xs: body]. *)
Fixpoint for_each {A : Type} (xs : list A) (body : A -> M unit) : M unit :=
  match xs with
  | [] => ret tt
  | x :: xs' => body x ;; for_each xs' body
  end.

(** The body of an entry point: its [try] block, and on an exception the
    [except] clauses, which may end in the recursive call. *)
Definition try_run (m : M unit) (h : exn -> run) : run :=
  match m with
  | (t, inr _) => (t, Returned)
  | (t, inl e) => let (t', f) := h e in (t ++ t', f)
  end.

Notation "m ;;; r" := (and_then m (fun _ => r))
  (at level 61, right associativity).

Definition insert_many (ordered : bool) (documents : list value)
    (r : option exn) : M unit :=
  emit (EvInsertMany ordered documents) ;; reply r.

Definition bulk_write (ops : list UpdateOne) (r : option exn) : M unit :=
  emit (EvIndexBulkWrite ops) ;; reply r.

Definition set_quotes_finished : M unit := emit EvSetQuotesFinished.

Definition set_popularities_finished : M unit := emit EvSetPopularitiesFinished.

(** ** The worker *)

Section Worker.

Context {U : Utils}.

(** [store_popularities(popularity_map, collection)]: one document per key of
    the map, built when [insert_many] consumes the [map] object. *)
Definition store_popularities (timestamp : Z) (r : option exn)
    (popularity_map : dict) : M unit :=
  print (LogPopularityMap popularity_map) ;;
  mapped_documents <- lift (map_raising
    (fun key =>
       popularity <~ subscript (VDict popularity_map) key ;;
       inr (VDict [("timestamp", VDatetime timestamp);
                   ("instrument_id", VStr key);
                   ("popularity", popularity)]))
    (dict_keys popularity_map)) ;;
  insert_many true mapped_documents r.

Definition map_quote (quote : value) : result value :=
  url <~ subscript quote "instrument" ;;
  instrument_id <~ parse_instrument_url url ;;
  projected <~ pluck DESIRED_QUOTE_KEYS quote ;;
  let plucked := dict_update [("instrument_id", VStr instrument_id)] projected in
  raw <~ subscript (VDict plucked) "updated_at" ;;
  updated_at <~ parse_updated_at raw ;;
  inr (VDict (dict_set "updated_at" updated_at plucked)).

Definition format_quote (quote : value) : result value :=
  symbol <~ subscript quote "symbol" ;;
  bid <~ subscript quote "bid_price" ;;
  ask <~ subscript quote "ask_price" ;;
  inr (VDict [("symbol", symbol); ("bid", bid); ("ask", ask)]).

Definition update_index_symbol (timestamp : Z) (datum : value)
  : result UpdateOne :=
  has_traded <~ py_get datum "has_traded" ;;
  raw <~ py_get datum "updated_at" ;;
  updated_at <~ parse_updated_at raw ;;
  trading_halted <~ py_get datum "trading_halted" ;;
  url <~ subscript datum "instrument" ;;
  instrument_id <~ parse_instrument_url url ;;
  inr (mk_UpdateOne instrument_id
         [("timestamp", VDatetime timestamp);
          ("has_traded", has_traded);
          ("updated_at", updated_at);
          ("trading_halted", trading_halted)]).

(** The [except BulkWriteError] clause of [store_quotes]. *)
Definition report_write_errors (e : exn) : M unit :=
  match e with
  | BulkWriteError writeErrors =>
      for_each writeErrors (fun err =>
        if negb (contains "duplicate key" (we_errmsg err))
        then print LogUnhandledWrite ;; print (LogWriteError err)
        else ret tt)
  | _ => raise e
  end.

(** [store_quotes(quotes, collection)].  The name [quotes] is rebound twice in
    the source: to the entries that are not [None], then to the mapped
    documents. *)
Definition store_quotes (a : attempt) (quotes : value) : M unit :=
  items <- lift (py_iter quotes) ;;
  let quotes := filter not_none items in
  formatted <- lift (map_raising format_quote quotes) ;;
  print (LogQuotes formatted) ;;
  let timestamp := clock a in
  ops <- lift (map_raising (update_index_symbol timestamp) quotes) ;;
  bulk_write ops (index_reply a) ;;
  quotes <- lift (map_raising map_quote quotes) ;;
  try_except (insert_many false quotes (insert_reply a)) report_write_errors.

(** The local [res] as an [except] clause sees it: unbound when the API call
    itself raised. *)
Definition bound_res (a : attempt) : result value :=
  match api_reply a with
  | inr res => inr res
  | inl _ => inl UnboundLocalError
  end.

Definition popularity_url (instrument_ids : string) : string :=
  "https://api.robinhood.com/instruments/popularity/?ids=" ++ instrument_ids.

Definition reduce_popularity (acc : dict) (datum : value) : result dict :=
  url <~ subscript datum "instrument" ;;
  instrument_id <~ parse_instrument_url url ;;
  num_open_positions <~ subscript datum "num_open_positions" ;;
  inr (dict_set instrument_id num_open_positions acc).

(** The [try] block of [fetch_popularity]. *)
Definition popularity_try (a : attempt) (instrument_ids : string)
    (worker_request_cooldown_seconds : Q) : M unit :=
  emit (EvGetUrl (popularity_url instrument_ids)) ;;
  res <- lift (api_reply a) ;;
  results <- lift (subscript res "results") ;;
  items <- lift (py_iter results) ;;
  popularities <- lift (reduce reduce_popularity items []) ;;
  store_popularities (clock a) (insert_reply a) popularities ;;
  sleep worker_request_cooldown_seconds.

(** [call_self()]: wait 30 seconds, then call [fetch_popularity] again with
    the arguments of the enclosing call; [again] is that call. *)
Definition call_self (again : run) : run :=
  sleep (seconds_of 30) ;;; again.

(** The [except] clauses of [fetch_popularity]. *)
Definition popularity_except (a : attempt) (again : run) (e : exn) : run :=
  match e with
  | KeyError =>
      and_then
        (res <- lift (bound_res a) ;;
         results <- lift (py_get res "results") ;;
         ret (res, results))
        (fun rr =>
           let (res, results) := rr in
           if negb (truthy results)
           then (print (LogUnexpectedPopularity res) ;;
                 sleep (seconds_of 120)) ;;; ([], Returned)
           else (print (LogRes res) ;;
                 detail <- lift (subscript res "detail") ;;
                 cooldown_seconds <- lift (parse_throttle_res detail) ;;
                 print (LogPopularityCooldown cooldown_seconds) ;;
                 sleep cooldown_seconds) ;;; again)
  | ReadTimeout => print LogPopularityTimeout ;;; call_self again
  | TypeError => print LogGarbage ;;; call_self again
  | JSONDecodeError => print LogHtml ;;; call_self again
  | _ => ([], Raised e)
  end.

(** [fetch_popularity(instrument_ids, collection, sleep, cooldown)].  Each
    pass through the [try] block takes the next attempt of the script. *)
Fixpoint fetch_popularity (w : list attempt) (instrument_ids : string)
    (worker_request_cooldown_seconds : Q) {struct w} : run :=
  if String.eqb instrument_ids "__DONE"
  then (print LogPopularityDone ;; set_popularities_finished) ;;; ([], Returned)
  else
    match w with
    | [] => ([EvGetUrl (popularity_url instrument_ids)], Awaiting)
    | a :: w' =>
        try_run
          (popularity_try a instrument_ids worker_request_cooldown_seconds)
          (popularity_except a
             (fetch_popularity w' instrument_ids worker_request_cooldown_seconds))
    end.

(** The [try] block of [fetch_quote]. *)
Definition quote_try (a : attempt) (symbols : string)
    (worker_request_cooldown_seconds : Q) : M unit :=
  emit (EvQuoteData symbols) ;;
  res <- lift (api_reply a) ;;
  quotes <- lift (subscript res "results") ;;
  store_quotes a quotes ;;
  sleep worker_request_cooldown_seconds.

(** The [except] clauses of [fetch_quote]. *)
Definition quote_except (a : attempt) (symbols : string) (again : run)
    (e : exn) : run :=
  match e with
  | KeyError =>
      and_then
        (res <- lift (bound_res a) ;;
         detail <- lift (py_get res "detail") ;;
         ret (res, detail))
        (fun rd =>
           let (res, detail) := rd in
           if negb (truthy detail)
           then (print (LogUnexpectedQuote res) ;;
                 sleep (seconds_of 120)) ;;; ([], Returned)
           else (detail <- lift (subscript res "detail") ;;
                 cooldown_seconds <- lift (parse_throttle_res detail) ;;
                 print (LogQuoteCooldown cooldown_seconds) ;;
                 sleep cooldown_seconds) ;;; again)
  | InvalidTickerSymbol => print (LogBadSymbols symbols) ;;; ([], Returned)
  | ReadTimeout =>
      (print LogQuoteTimeout ;; sleep (seconds_of 30)) ;;; again
  | _ => ([], Raised e)
  end.

(** [fetch_quote(symbols, collection, sleep, cooldown)]. *)
Fixpoint fetch_quote (w : list attempt) (symbols : string)
    (worker_request_cooldown_seconds : Q) {struct w} : run :=
  if String.eqb symbols "__DONE"
  then (print LogQuoteDone ;; set_quotes_finished) ;;; ([], Returned)
  else
    match w with
    | [] => ([EvQuoteData symbols], Awaiting)
    | a :: w' =>
        try_run
          (quote_try a symbols worker_request_cooldown_seconds)
          (quote_except a symbols
             (fetch_quote w' symbols worker_request_cooldown_seconds))
    end.

End Worker.

(** ** The recursion limit

    A retry is a call of the entry point from inside one of its own [except]
    clauses, so every retry sits one level deeper on the interpreter's stack,
    and the interpreter allows only so many levels.  [fetch_quote] and
    [fetch_popularity] above are the entry points with room for every retry
    the script asks for; [fetch_quote_within] and [fetch_popularity_within]
    are the same entry points with room for [depth] more nested calls of
    themselves (how many that is depends on the interpreter's limit, on what
    is already on the stack and on the frames one retry takes: one for a
    direct call, two through [call_self]).  At a nested call for which no room
    is left the interpreter raises [RecursionError]; it is raised inside an
    [except] clause of every enclosing call, so it leaves them all. *)


Section Limit.

Context {U : Utils}.



End Limit.

(** ** A reference implementation of the imported helpers

    Used for the concrete runs below; the theorems about the worker hold for
    every implementation. *)

Module SpecUtils.

Fixpoint split_on (sep : ascii) (s : string) : list string :=
  match s with
  | EmptyString => [EmptyString]
  | String c s' =>
      if Ascii.eqb c sep then EmptyString :: split_on sep s'
      else match split_on sep s' with
           | [] => [String c EmptyString]
           | seg :: segs => String c seg :: segs
           end
  end.

Definition last_nonempty (segs : list string) : option string :=
  fold_left
    (fun acc seg => if String.eqb seg "" then acc else Some seg)
    segs None.

Definition digit_of (c : ascii) : option Z :=
  let n := Z.of_nat (nat_of_ascii c) in
  if andb (Z.leb 48 n) (Z.leb n 57) then Some (n - 48)%Z else None.

(** The number written by the decimal digits of [s], other characters
    skipped; [None] when [s] has no digit. *)
Fixpoint digits_value (s : string) (acc : option Z) : option Z :=
  match s with
  | EmptyString => acc
  | String c s' =>
      match digit_of c with
      | Some d =>
          digits_value s'
            (Some (10 * match acc with Some n => n | None => 0 end + d)%Z)
      | None => digits_value s' acc
      end
  end.

Fixpoint all_digits (s : string) : bool :=
  match s with
  | EmptyString => true
  | String c s' =>
      match digit_of c with
      | Some _ => all_digits s'
      | None => false
      end
  end.

Definition number_token (tok : string) : option Z :=
  if andb (all_digits tok) (negb (String.eqb tok ""))
  then digits_value tok None else None.

(** Scan the words for a number followed by a unit. *)
Fixpoint cooldown_of (toks : list string) : option Q :=
  match toks with
  | num :: ((unit :: _) as rest) =>
      match number_token num with
      | Some n =>
          if String.prefix "second" unit then Some (seconds_of n)
          else if String.prefix "minute" unit then Some (seconds_of (n * 60))
          else cooldown_of rest
      | None => cooldown_of rest
      end
  | _ => None
  end.

(** Modelled from the spec: [common.parse_throttle_res] is not among the
    sources.  A retry-after phrase is a number followed by a unit, seconds or
    minutes, and is normalised to seconds; a phrase without one fails. *)
Definition parse_throttle_res (detail : value) : result Q :=
  match detail with
  | VStr msg =>
      match cooldown_of (split_on " "%char msg) with
      | Some s => inr s
      | None => inl ValueError
      end
  | _ => inl TypeError
  end.

(** Modelled from the spec: [utils.parse_instrument_url] is not among the
    sources.  The id is the last non-empty path segment of the URL. *)
Definition parse_instrument_url (url : value) : result string :=
  match url with
  | VStr u =>
      match last_nonempty (split_on "/"%char u) with
      | Some seg => inr seg
      | None => inl ValueError
      end
  | _ => inl AttributeError
  end.

(** Modelled from the spec: [utils.parse_updated_at] is not among the
    sources.  It accepts a timestamp string or null, and null passes through.
    The instant is kept as the number its digits write, year first. *)
Definition parse_updated_at (updated_at : value) : result value :=
  match updated_at with
  | VNone => inr VNone
  | VStr t =>
      match digits_value t None with
      | Some n => inr (VDatetime n)
      | None => inl ValueError
      end
  | _ => inl TypeError
  end.

(** Modelled from the spec: [utils.pluck] is not among the sources.  It
    copies the listed fields that the quote has. *)
Definition pluck (keys : list string) (quote : value) : result dict :=
  match quote with
  | VDict d =>
      inr (flat_map
             (fun k => match dict_get k d with
                       | Some v => [(k, v)]
                       | None => []
                       end)
             keys)
  | _ => inl TypeError
  end.

(** Modelled from the spec: [utils.DESIRED_QUOTE_KEYS] is not among the
    sources.  The projection holds the symbol, the bid and ask price and the
    time of the update. *)
Definition DESIRED_QUOTE_KEYS : list string :=
  ["symbol"; "bid_price"; "ask_price"; "updated_at"].

#[export] Instance utils : Utils :=
  Build_Utils parse_throttle_res parse_instrument_url parse_updated_at
    pluck DESIRED_QUOTE_KEYS.

End SpecUtils.

(** ** Reading traces *)

Definition trace {A : Type} (r : list event * A) : list event := fst r.

Definition count (p : event -> bool) (t : list event) : nat :=
  length (filter p t).

Definition is_api_call (ev : event) : bool :=
  match ev with
  | EvQuoteData _ | EvGetUrl _ => true
  | _ => false
  end.

Definition is_write (ev : event) : bool :=
  match ev with
  | EvIndexBulkWrite _ | EvInsertMany _ _ => true
  | _ => false
  end.

Definition is_sleep (ev : event) : bool :=
  match ev with
  | EvSleep _ => true
  | _ => false
  end.

Definition is_quotes_finished (ev : event) : bool :=
  match ev with
  | EvSetQuotesFinished => true
  | _ => false
  end.

Definition is_popularities_finished (ev : event) : bool :=
  match ev with
  | EvSetPopularitiesFinished => true
  | _ => false
  end.

Definition is_finished (ev : event) : bool :=
  is_quotes_finished ev || is_popularities_finished ev.

(** An event that marks no phase as finished. *)
Definition quiet (ev : event) : Prop := is_finished ev = false.

(** The operation lists handed to the index collection, call by call. *)
Definition index_writes (t : list event) : list (list UpdateOne) :=
  flat_map (fun ev => match ev with
                      | EvIndexBulkWrite ops => [ops]
                      | _ => []
                      end) t.

(** The document lists handed to [insert_many], call by call. *)
Definition fact_inserts (t : list event) : list (list value) :=
  flat_map (fun ev => match ev with
                      | EvInsertMany _ docs => [docs]
                      | _ => []
                      end) t.

(** The same attempt, with another answer to the fact insert. *)
Definition with_insert_reply (a : attempt) (r : option exn) : attempt :=
  mk_attempt (api_reply a) (clock a) (index_reply a) r.

(** What [store_quotes] prints for the rows of a batch-write error. *)
Definition reported_rows (errs : list write_error) : list event :=
  flat_map
    (fun err =>
       if contains "duplicate key" (we_errmsg err) then []
       else [EvPrint LogUnhandledWrite; EvPrint (LogWriteError err)])
    errs.

(** The row [store_popularities] builds for one key. *)
Definition popularity_document (timestamp : Z) (key : string) (n : value)
  : value :=
  VDict [("timestamp", VDatetime timestamp);
         ("instrument_id", VStr key);
         ("popularity", n)].

(** What one timed-out attempt leaves in the trace. *)
Definition quote_timeout_round (symbols : string) : list event :=
  [EvQuoteData symbols; EvPrint LogQuoteTimeout; EvSleep (seconds_of 30)].

Definition popularity_timeout_round `{Utils} (instrument_ids : string)
  : list event :=
  [EvGetUrl (popularity_url instrument_ids);
   EvPrint LogPopularityTimeout; EvSleep (seconds_of 30)].

Section Classes.

Context {U : Utils}.





End Classes.

(** ** Concrete data for the runs *)

Module Sample.

Definition apple : value :=
  VDict [("symbol", VStr "AAPL");
         ("bid_price", VStr "170.10");
         ("ask_price", VStr "170.12");
         ("updated_at", VStr "2019-03-01T12:00:00Z");
         ("instrument", VStr "https://api.robinhood.com/instruments/450dfc6d/");
         ("has_traded", VBool true);
         ("trading_halted", VBool false)].

Definition apple_op : UpdateOne :=
  mk_UpdateOne "450dfc6d"
    [("timestamp", VDatetime 7);
     ("has_traded", VBool true);
     ("updated_at", VDatetime 20190301120000);
     ("trading_halted", VBool false)].

Definition apple_doc : value :=
  VDict [("instrument_id", VStr "450dfc6d");
         ("symbol", VStr "AAPL");
         ("bid_price", VStr "170.10");
         ("ask_price", VStr "170.12");
         ("updated_at", VDatetime 20190301120000)].

Definition batch : list value := [VNone; apple].

Definition throttled : value :=
  VDict [("detail",
          VStr "Request was throttled. Expected available in 5 seconds.")].

Definition popular : value :=
  VDict [("results",
          VList [VDict [("instrument", VStr "https://api.robinhood.com/instruments/9/");
                        ("num_open_positions", VInt 7)];
                 VDict [("instrument", VStr "https://api.robinhood.com/instruments/2/");
                        ("num_open_positions", VInt 3)]])].

Definition one_second : Q := seconds_of 1.

(** An attempt in which the API returns [res] and both writes go through. *)
Definition answers (res : value) : attempt :=
  mk_attempt (inr res) 7 None None.

(** An attempt in which the API call raises [e]. *)
Definition raises (e : exn) : attempt :=
  mk_attempt (inl e) 7 None None.

Definition duplicate_row : write_error :=
  mk_write_error 0 11000
    "E11000 duplicate key error collection: robinhood.quotes".

Definition oversized_row : write_error :=
  mk_write_error 1 10334 "BSONObj size is invalid".

(** The API returns [batch]; the clock shows 7; both writes go through. *)
Definition quoted : attempt :=
  answers (VDict [("results", VList batch)]).

(** As [quoted], but the index collection answers with a batch-write error. *)
Definition index_down : attempt :=
  mk_attempt (inr (VDict [("results", VList batch)])) 7
    (Some (BulkWriteError [oversized_row])) None.

(** As [quoted], but two rows of the fact insert fail. *)
Definition rows_rejected : attempt :=
  with_insert_reply quoted
    (Some (BulkWriteError [duplicate_row; oversized_row])).

End Sample.

(** ** The command line

    [cli] looks the mode up in [WORK_CBS], declares the mode's queue and hands
    every delivery to the mode's callback.  The mode is one of the two that
    [click.Choice] lets through; a delivery is the decoded text of a message
    body together with what the world answers while it is handled; the
    connection, the channel and the store are taken to open without raising. *)

Inductive mode : Type :=
| quote_mode
| popularity_mode.

Definition callback : Type := list attempt -> string -> Q -> run.

Definition delivery : Type := (string * list attempt)%type.

(** How the consumer stands when the deliveries of the script are used up:
    blocked waiting for the next one, stopped by an exception out of
    [handle_work], or (the model's own) inside a handler whose API call the
    script does not answer. *)
Inductive consumer_end : Type :=
| Waiting
| Crashed (e : exn)
| Stalled.

Inductive cli_event : Type :=
| CliPrintUnlocking
| CliUnlockCache
| CliConnect (host : string) (port : Z)
| CliChannel
| CliGetDb
| CliCollection (name : string)
| CliQueueDeclare (queue : string)
| CliBasicConsume (queue : string) (no_ack : bool)
| CliWorker (ev : event).

(** [handle_work(_channel, _method, _properties, body)]. *)
Definition handle_work (work_cb : callback)
    (worker_request_cooldown_seconds : Q) (d : delivery) : run :=
  work_cb (snd d) (fst d) worker_request_cooldown_seconds.

(** [rabbitmq_channel.start_consuming()]: the deliveries are handled one at a
    time, in order; an exception out of the handler ends the consumer. *)
Fixpoint start_consuming (work_cb : callback)
    (worker_request_cooldown_seconds : Q) (ds : list delivery)
  : list event * consumer_end :=
  match ds with
  | [] => ([], Waiting)
  | d :: ds' =>
      match handle_work work_cb worker_request_cooldown_seconds d with
      | (t, Returned) =>
          let (t', f) :=
            start_consuming work_cb worker_request_cooldown_seconds ds' in
          (t ++ t', f)
      | (t, Raised e) => (t, Crashed e)
      | (t, Awaiting) => (t, Stalled)
      end
  end.

Section CommandLine.

Context {U : Utils}.

Definition WORK_CBS (m : mode) : callback * string * string :=
  match m with
  | popularity_mode => (fetch_popularity, "popularity", "instrument_ids")
  | quote_mode => (fetch_quote, "quotes", "symbols")
  end.

(** [cli(mode, rabbitmq_host, rabbitmq_port, worker_request_cooldown_seconds)]. *)
Definition cli (m : mode) (rabbitmq_host : string) (rabbitmq_port : Z)
    (worker_request_cooldown_seconds : Q) (ds : list delivery)
  : list cli_event * consumer_end :=
  let '(work_cb, collection_name, channel_name) := WORK_CBS m in
  let (t, f) := start_consuming work_cb worker_request_cooldown_seconds ds in
  ([CliPrintUnlocking; CliUnlockCache;
    CliConnect rabbitmq_host rabbitmq_port; CliChannel;
    CliGetDb; CliCollection collection_name;
    CliQueueDeclare channel_name;
    CliBasicConsume channel_name true]
     ++ map CliWorker t,
   f).

(** The events a run of [fetch_quote] on [symbols] may leave: API calls are
    [quote_data] on these symbols, inserts are unordered, and nothing of the
    popularity side occurs. *)
Definition quote_event (symbols : string) (ev : event) : Prop :=
  match ev with
  | EvQuoteData s => s = symbols
  | EvInsertMany ordered _ => ordered = false
  | EvGetUrl _ => False
  | EvSetPopularitiesFinished => False
  | _ => True
  end.

(** The events a run of [fetch_popularity] on [instrument_ids] may leave: API
    calls are for the popularity URL of these ids, inserts are ordered, and
    neither the index collection nor anything of the quote side occurs. *)
Definition popularity_event (instrument_ids : string) (ev : event) : Prop :=
  match ev with
  | EvGetUrl url => url = popularity_url instrument_ids
  | EvInsertMany ordered _ => ordered = true
  | EvQuoteData _ => False
  | EvIndexBulkWrite _ => False
  | EvSetQuotesFinished => False
  | _ => True
  end.

(** A worker event that belongs to the given mode, whatever the batch. *)
Definition mode_event (m : mode) (ev : event) : Prop :=
  match m with
  | quote_mode => exists symbols, quote_event symbols ev
  | popularity_mode => exists ids, popularity_event ids ev
  end.

End CommandLine.

(** [d.get(k)] on a dict, as a value. *)
Definition dict_get_default (k : string) (d : dict) : value :=
  match dict_get k d with
  | Some v => v
  | None => VNone
  end.

(** The exception classes the [except] clauses of [fetch_popularity] name. *)
Definition popularity_names (e : exn) : bool :=
  match e with
  | KeyError | ReadTimeout | TypeError | JSONDecodeError => true
  | _ => false
  end.

(** ** More concrete data *)

Module Cases.



Definition bare : value :=
  VDict [("instrument", VStr "https://api.robinhood.com/instruments/450dfc6d/")].

Definition empty_response : value := VDict [].

Definition no_count : value :=
  VDict [("results",
          VList [VDict [("instrument",
                         VStr "https://api.robinhood.com/instruments/9/")]])].

Definition nine_and_two : dict := [("9", VInt 7); ("2", VInt 3)].

Definition popular_items : list value :=
  [VDict [("instrument", VStr "https://api.robinhood.com/instruments/9/");
          ("num_open_positions", VInt 7)];
   VDict [("instrument", VStr "https://api.robinhood.com/instruments/2/");
          ("num_open_positions", VInt 3)]].

(** The fact insert is answered with an exception that is no batch-write
    error. *)
Definition insert_refused : attempt :=
  with_insert_reply Sample.quoted (Some ConnectionError).

Definition popular_refused : attempt :=
  with_insert_reply (Sample.answers Sample.popular)
    (Some (BulkWriteError [Sample.oversized_row])).

End Cases.

(** ** Traces of the combinators *)

Section TraceInvariant.

Variable P : event -> Prop.

Lemma trace_bind_all {A B : Type} (m : M A) (k : A -> M B) :
  Forall P (fst m) ->
  (forall a, snd m = inr a -> Forall P (fst (k a))) ->
  Forall P (fst (bind m k)).
Proof.
  destruct m as [t [e | a]]; simpl; intros Ht Hk; [exact Ht |].
  specialize (Hk a eq_refl).
  destruct (k a) as [t' r]; simpl in *.
  apply Forall_app; split; assumption.
Qed.

Lemma trace_and_then_all {A : Type} (m : M A) (k : A -> run) :
  Forall P (fst m) ->
  (forall a, snd m = inr a -> Forall P (fst (k a))) ->
  Forall P (fst (and_then m k)).
Proof.
  destruct m as [t [e | a]]; simpl; intros Ht Hk; [exact Ht |].
  specialize (Hk a eq_refl).
  destruct (k a) as [t' r]; simpl in *.
  apply Forall_app; split; assumption.
Qed.

Lemma trace_try_except_all {A : Type} (m : M A) (h : exn -> M A) :
  Forall P (fst m) ->
  (forall e, snd m = inl e -> Forall P (fst (h e))) ->
  Forall P (fst (try_except m h)).
Proof.
  destruct m as [t [e | a]]; simpl; intros Ht Hh; [| exact Ht].
  specialize (Hh e eq_refl).
  destruct (h e) as [t' r]; simpl in *.
  apply Forall_app; split; assumption.
Qed.

Lemma trace_try_run_all (m : M unit) (h : exn -> run) :
  Forall P (fst m) ->
  (forall e, snd m = inl e -> Forall P (fst (h e))) ->
  Forall P (fst (try_run m h)).
Proof.
  destruct m as [t [e | a]]; simpl; intros Ht Hh; [| exact Ht].
  specialize (Hh e eq_refl).
  destruct (h e) as [t' r]; simpl in *.
  apply Forall_app; split; assumption.
Qed.

Lemma trace_lift_all {A : Type} (r : result A) : Forall P (fst (lift r)).
Proof. constructor. Qed.

Lemma trace_ret_all {A : Type} (a : A) : Forall P (fst (ret a)).
Proof. constructor. Qed.

Lemma trace_reply_all (r : option exn) : Forall P (fst (reply r)).
Proof. destruct r; constructor. Qed.

Lemma trace_emit_all (ev : event) : P ev -> Forall P (fst (emit ev)).
Proof. intro H; simpl; constructor; [exact H | constructor]. Qed.

Lemma trace_for_each_all {A : Type} (xs : list A) (body : A -> M unit) :
  (forall x, In x xs -> Forall P (fst (body x))) ->
  Forall P (fst (for_each xs body)).
Proof.
  induction xs as [| x xs IH]; intro H; simpl for_each.
  - constructor.
  - apply trace_bind_all.
    + apply H; left; reflexivity.
    + intros _ _. apply IH. intros y Hy. apply H; right; exact Hy.
Qed.

End TraceInvariant.

Ltac trace_step :=
  first
    [ apply trace_bind_all; [| intros ? ?]
    | apply trace_and_then_all; [| intros ? ?]
    | apply trace_try_except_all; [| intros ? ?]
    | apply trace_lift_all
    | apply trace_ret_all
    | apply trace_reply_all
    | apply trace_emit_all; simpl; try reflexivity
    | apply trace_for_each_all; intros ? ? ].

Lemma count_none (p : event -> bool) (t : list event) :
  Forall (fun ev => p ev = false) t -> count p t = 0%nat.
Proof.
  unfold count. induction 1 as [| ev t Hev _ IH]; simpl.
  - reflexivity.
  - rewrite Hev. exact IH.
Qed.

Lemma not_sentinel (body : string) :
  body <> "__DONE" -> String.eqb body "__DONE" = false.
Proof. intro H. apply String.eqb_neq. exact H. Qed.

Section Entry.

Context {U : Utils}.

Lemma fetch_quote_sentinel (w : list attempt) (cooldown : Q) :
  fetch_quote w "__DONE" cooldown
  = ([EvPrint LogQuoteDone; EvSetQuotesFinished], Returned).
Proof. destruct w; reflexivity. Qed.

Lemma fetch_popularity_sentinel (w : list attempt) (cooldown : Q) :
  fetch_popularity w "__DONE" cooldown
  = ([EvPrint LogPopularityDone; EvSetPopularitiesFinished], Returned).
Proof. destruct w; reflexivity. Qed.

Lemma fetch_quote_step (a : attempt) (w : list attempt) (symbols : string)
    (cooldown : Q) :
  symbols <> "__DONE" ->
  fetch_quote (a :: w) symbols cooldown
  = try_run (quote_try a symbols cooldown)
      (quote_except a symbols (fetch_quote w symbols cooldown)).
Proof. intro H. simpl. rewrite (not_sentinel _ H). reflexivity. Qed.

Lemma fetch_popularity_step (a : attempt) (w : list attempt)
    (instrument_ids : string) (cooldown : Q) :
  instrument_ids <> "__DONE" ->
  fetch_popularity (a :: w) instrument_ids cooldown
  = try_run (popularity_try a instrument_ids cooldown)
      (popularity_except a (fetch_popularity w instrument_ids cooldown)).
Proof. intro H. simpl. rewrite (not_sentinel _ H). reflexivity. Qed.

(** When the API call itself raises, the [try] block ends there. *)
Lemma quote_try_api_raises (a : attempt) (symbols : string) (cooldown : Q)
    (e : exn) :
  api_reply a = inl e ->
  quote_try a symbols cooldown = ([EvQuoteData symbols], inl e).
Proof. intro H. unfold quote_try. rewrite H. reflexivity. Qed.

Lemma popularity_try_api_raises (a : attempt) (instrument_ids : string)
    (cooldown : Q) (e : exn) :
  api_reply a = inl e ->
  popularity_try a instrument_ids cooldown
  = ([EvGetUrl (popularity_url instrument_ids)], inl e).
Proof. intro H. unfold popularity_try. rewrite H. reflexivity. Qed.

Lemma quote_try_starts (a : attempt) (symbols : string) (cooldown : Q) :
  exists t, fst (quote_try a symbols cooldown) = EvQuoteData symbols :: t.
Proof.
  unfold quote_try. simpl.
  match goal with |- context [let (_, _) := ?m in _] => destruct m as [t r] end.
  exists t. reflexivity.
Qed.

Lemma popularity_try_starts (a : attempt) (instrument_ids : string)
    (cooldown : Q) :
  exists t, fst (popularity_try a instrument_ids cooldown)
            = EvGetUrl (popularity_url instrument_ids) :: t.
Proof.
  unfold popularity_try. simpl.
  match goal with |- context [let (_, _) := ?m in _] => destruct m as [t r] end.
  exists t. reflexivity.
Qed.

Lemma try_run_starts (m : M unit) (h : exn -> run) (ev : event) :
  (exists t, fst m = ev :: t) -> exists t, fst (try_run m h) = ev :: t.
Proof.
  intros [t Ht]. destruct m as [t0 [e | []]]; simpl in *; subst t0.
  - destruct (h e) as [t' f]. exists (t ++ t'). reflexivity.
  - exists t. reflexivity.
Qed.

End Entry.

(** ** Only the sentinel marks a phase as finished *)

Section Finished.

Context {U : Utils}.

Lemma store_quotes_quiet (a : attempt) (quotes : value) :
  Forall quiet (fst (store_quotes a quotes)).
Proof.
  unfold store_quotes, insert_many, bulk_write, print, quiet.
  repeat trace_step.
  unfold report_write_errors. destruct e; repeat trace_step.
  destruct (negb _); unfold print; repeat trace_step.
Qed.

Lemma store_popularities_quiet (timestamp : Z) (r : option exn) (m : dict) :
  Forall quiet (fst (store_popularities timestamp r m)).
Proof.
  unfold store_popularities, insert_many, print, quiet.
  repeat trace_step.
Qed.

Lemma quote_try_quiet (a : attempt) (symbols : string) (cooldown : Q) :
  Forall quiet (fst (quote_try a symbols cooldown)).
Proof.
  unfold quote_try, sleep.
  repeat first [apply store_quotes_quiet | trace_step].
Qed.

Lemma popularity_try_quiet (a : attempt) (ids : string) (cooldown : Q) :
  Forall quiet (fst (popularity_try a ids cooldown)).
Proof.
  unfold popularity_try, sleep.
  repeat first [apply store_popularities_quiet | trace_step].
Qed.

Lemma quote_except_quiet (a : attempt) (symbols : string) (again : run)
    (e : exn) :
  Forall quiet (fst again) ->
  Forall quiet (fst (quote_except a symbols again e)).
Proof.
  intro Hagain. unfold quote_except, sleep, print.
  destruct e; try (simpl; constructor); repeat trace_step; try exact Hagain.
  destruct a0 as [res detail]. destruct (negb (truthy detail));
    repeat trace_step; try exact Hagain.
  all: first [reflexivity | simpl; constructor].
Qed.

Lemma popularity_except_quiet (a : attempt) (again : run) (e : exn) :
  Forall quiet (fst again) ->
  Forall quiet (fst (popularity_except a again e)).
Proof.
  intro Hagain. unfold popularity_except, call_self, sleep, print.
  destruct e; try (simpl; constructor); repeat trace_step; try exact Hagain.
  destruct a0 as [res results]. destruct (negb (truthy results));
    repeat trace_step; try exact Hagain.
  all: first [reflexivity | simpl; constructor].
Qed.

Lemma fetch_quote_quiet (w : list attempt) (symbols : string) (cooldown : Q) :
  symbols <> "__DONE" ->
  Forall quiet (fst (fetch_quote w symbols cooldown)).
Proof.
  intro Hne. induction w as [| a w IH].
  - simpl. rewrite (not_sentinel _ Hne). simpl.
    constructor; [reflexivity | constructor].
  - rewrite (fetch_quote_step _ _ _ _ Hne).
    apply trace_try_run_all.
    + apply quote_try_quiet.
    + intros e _. apply quote_except_quiet. exact IH.
Qed.

Lemma fetch_popularity_quiet (w : list attempt) (ids : string) (cooldown : Q) :
  ids <> "__DONE" ->
  Forall quiet (fst (fetch_popularity w ids cooldown)).
Proof.
  intro Hne. induction w as [| a w IH].
  - simpl. rewrite (not_sentinel _ Hne). simpl.
    constructor; [reflexivity | constructor].
  - rewrite (fetch_popularity_step _ _ _ _ Hne).
    apply trace_try_run_all.
    + apply popularity_try_quiet.
    + intros e _. apply popularity_except_quiet. exact IH.
Qed.

Lemma fetch_quote_starts (w : list attempt) (symbols : string) (cooldown : Q) :
  symbols <> "__DONE" ->
  exists t, fst (fetch_quote w symbols cooldown) = EvQuoteData symbols :: t.
Proof.
  intro Hne. destruct w as [| a w].
  - simpl. rewrite (not_sentinel _ Hne). exists []. reflexivity.
  - rewrite (fetch_quote_step _ _ _ _ Hne).
    apply try_run_starts. apply quote_try_starts.
Qed.

Lemma fetch_popularity_starts (w : list attempt) (ids : string)
    (cooldown : Q) :
  ids <> "__DONE" ->
  exists t, fst (fetch_popularity w ids cooldown)
            = EvGetUrl (popularity_url ids) :: t.
Proof.
  intro Hne. destruct w as [| a w].
  - simpl. rewrite (not_sentinel _ Hne). exists []. reflexivity.
  - rewrite (fetch_popularity_step _ _ _ _ Hne).
    apply try_run_starts. apply popularity_try_starts.
Qed.

(** C5.  On the sentinel [__DONE] an entry point calls the setter of its own
    mode exactly once, calls neither the API nor the store, does not sleep,
    and returns. *)
Theorem sentinel_marks_phase_once (w : list attempt) (cooldown : Q) :
  (fetch_quote w "__DONE" cooldown
     = ([EvPrint LogQuoteDone; EvSetQuotesFinished], Returned) /\
   count is_quotes_finished (trace (fetch_quote w "__DONE" cooldown)) = 1%nat /\
   count is_popularities_finished
     (trace (fetch_quote w "__DONE" cooldown)) = 0%nat /\
   count is_api_call (trace (fetch_quote w "__DONE" cooldown)) = 0%nat /\
   count is_write (trace (fetch_quote w "__DONE" cooldown)) = 0%nat /\
   count is_sleep (trace (fetch_quote w "__DONE" cooldown)) = 0%nat) /\
  (fetch_popularity w "__DONE" cooldown
     = ([EvPrint LogPopularityDone; EvSetPopularitiesFinished], Returned) /\
   count is_popularities_finished
     (trace (fetch_popularity w "__DONE" cooldown)) = 1%nat /\
   count is_quotes_finished
     (trace (fetch_popularity w "__DONE" cooldown)) = 0%nat /\
   count is_api_call (trace (fetch_popularity w "__DONE" cooldown)) = 0%nat /\
   count is_write (trace (fetch_popularity w "__DONE" cooldown)) = 0%nat /\
   count is_sleep (trace (fetch_popularity w "__DONE" cooldown)) = 0%nat).
Proof.
  rewrite fetch_quote_sentinel, fetch_popularity_sentinel.
  repeat split.
Qed.

(** C10.  A body other than the exact string [__DONE] is treated as a batch:
    the first thing the entry point does is the API call for that very body,
    and no phase is marked as finished anywhere in the run. *)
Theorem only_exact_sentinel_completes (w : list attempt) (body : string)
    (cooldown : Q) :
  body <> "__DONE" ->
  (exists t, trace (fetch_quote w body cooldown) = EvQuoteData body :: t) /\
  count is_finished (trace (fetch_quote w body cooldown)) = 0%nat /\
  (exists t, trace (fetch_popularity w body cooldown)
             = EvGetUrl (popularity_url body) :: t) /\
  count is_finished (trace (fetch_popularity w body cooldown)) = 0%nat.
Proof.
  intro Hne. unfold trace. repeat split.
  - apply fetch_quote_starts. exact Hne.
  - apply count_none. apply fetch_quote_quiet. exact Hne.
  - apply fetch_popularity_starts. exact Hne.
  - apply count_none. apply fetch_popularity_quiet. exact Hne.
Qed.

End Finished.

(** ** Retrying *)

Section Retry.

Context {U : Utils}.

Lemma quote_timeout_step (a : attempt) (w : list attempt) (symbols : string)
    (cooldown : Q) :
  symbols <> "__DONE" ->
  api_reply a = inl ReadTimeout ->
  fetch_quote (a :: w) symbols cooldown
  = (quote_timeout_round symbols ++ fst (fetch_quote w symbols cooldown),
     snd (fetch_quote w symbols cooldown)).
Proof.
  intros Hne Hto.
  rewrite (fetch_quote_step _ _ _ _ Hne), (quote_try_api_raises _ _ _ _ Hto).
  simpl. destruct (fetch_quote w symbols cooldown) as [t f]. reflexivity.
Qed.

Lemma popularity_timeout_step (a : attempt) (w : list attempt) (ids : string)
    (cooldown : Q) :
  ids <> "__DONE" ->
  api_reply a = inl ReadTimeout ->
  fetch_popularity (a :: w) ids cooldown
  = (popularity_timeout_round ids ++ fst (fetch_popularity w ids cooldown),
     snd (fetch_popularity w ids cooldown)).
Proof.
  intros Hne Hto.
  rewrite (fetch_popularity_step _ _ _ _ Hne),
    (popularity_try_api_raises _ _ _ _ Hto).
  simpl. destruct (fetch_popularity w ids cooldown) as [t f]. reflexivity.
Qed.

(** A response without [results] whose [detail] is a truthy value that
    [parse_throttle_res] reads: [fetch_quote] sleeps that long and runs again
    on the same symbols. *)
Lemma quote_rate_limited_retries (a : attempt) (w : list attempt)
    (symbols : string) (cooldown : Q) (d : dict) (detail : value) (s : Q) :
  symbols <> "__DONE" ->
  api_reply a = inr (VDict d) ->
  dict_get "results" d = None ->
  dict_get "detail" d = Some detail ->
  truthy detail = true ->
  parse_throttle_res detail = inr s ->
  fetch_quote (a :: w) symbols cooldown
  = ([EvQuoteData symbols; EvPrint (LogQuoteCooldown s); EvSleep s]
       ++ fst (fetch_quote w symbols cooldown),
     snd (fetch_quote w symbols cooldown)).
Proof.
  intros Hne Hres Hnores Hdetail Htruthy Hparse.
  rewrite (fetch_quote_step _ _ _ _ Hne).
  unfold quote_try, quote_except, bound_res.
  rewrite Hres. simpl. rewrite Hnores. simpl.
  rewrite Hdetail. simpl. rewrite Htruthy. simpl.
  rewrite Hdetail. simpl. rewrite Hparse. simpl.
  destruct (fetch_quote w symbols cooldown) as [t f]. reflexivity.
Qed.

(** The same response in [fetch_popularity]: the clause tests [results], which
    is missing, so it sleeps 120 seconds and returns whatever [detail] says. *)
Lemma popularity_missing_results_abandons (a : attempt) (w : list attempt)
    (ids : string) (cooldown : Q) (d : dict) :
  ids <> "__DONE" ->
  api_reply a = inr (VDict d) ->
  dict_get "results" d = None ->
  fetch_popularity (a :: w) ids cooldown
  = ([EvGetUrl (popularity_url ids);
      EvPrint (LogUnexpectedPopularity (VDict d));
      EvSleep (seconds_of 120)],
     Returned).
Proof.
  intros Hne Hres Hnores.
  rewrite (fetch_popularity_step _ _ _ _ Hne).
  unfold popularity_try, popularity_except, bound_res.
  rewrite Hres. simpl. rewrite Hnores. reflexivity.
Qed.

End Retry.

(** C1.  The rate-limited response [{"detail": "... available in 5 seconds."}]
    in both entry points: [fetch_quote] sleeps the 5 seconds of the phrase and
    calls the API again with the same symbols; [fetch_popularity] sleeps 120
    seconds and returns, with one API call in all and the second attempt of
    the script never asked for. *)
Theorem popularity_rate_limit_is_abandoned :
  SpecUtils.parse_throttle_res
    (VStr "Request was throttled. Expected available in 5 seconds.")
  = inr (seconds_of 5) /\
  fetch_quote (U := SpecUtils.utils)
    [Sample.answers Sample.throttled; Sample.raises InvalidTickerSymbol]
    "AAPL,MSFT" Sample.one_second
  = ([EvQuoteData "AAPL,MSFT";
      EvPrint (LogQuoteCooldown (seconds_of 5));
      EvSleep (seconds_of 5);
      EvQuoteData "AAPL,MSFT";
      EvPrint (LogBadSymbols "AAPL,MSFT")],
     Returned) /\
  fetch_popularity (U := SpecUtils.utils)
    [Sample.answers Sample.throttled; Sample.answers Sample.popular]
    "1,2,3" Sample.one_second
  = ([EvGetUrl "https://api.robinhood.com/instruments/popularity/?ids=1,2,3";
      EvPrint (LogUnexpectedPopularity Sample.throttled);
      EvSleep (seconds_of 120)],
     Returned) /\
  count is_api_call
    (trace (fetch_popularity (U := SpecUtils.utils)
              [Sample.answers Sample.throttled; Sample.answers Sample.popular]
              "1,2,3" Sample.one_second)) = 1%nat.
Proof. repeat split. Qed.

(** ** Dicts *)

Lemma dict_get_set_same (k : string) (v : value) (d : dict) :
  dict_get k (dict_set k v d) = Some v.
Proof.
  induction d as [| [k' v'] d IH]; simpl.
  - rewrite String.eqb_refl. reflexivity.
  - destruct (String.eqb k k') eqn:E; simpl; rewrite E.
    + reflexivity.
    + exact IH.
Qed.

Lemma dict_get_set_other (k k' : string) (v : value) (d : dict) :
  k <> k' -> dict_get k (dict_set k' v d) = dict_get k d.
Proof.
  intro Hne. induction d as [| [k0 v0] d IH]; simpl.
  - apply String.eqb_neq in Hne. rewrite Hne. reflexivity.
  - destruct (String.eqb k' k0) eqn:E; simpl.
    + apply String.eqb_eq in E. subst k0.
      apply String.eqb_neq in Hne. rewrite Hne. reflexivity.
    + rewrite IH. reflexivity.
Qed.

Lemma dict_get_none_not_key (k : string) (d : dict) :
  dict_get k d = None <-> ~ In k (dict_keys d).
Proof.
  induction d as [| [k' v'] d IH]; simpl.
  - split; [intros _ [] | reflexivity].
  - destruct (String.eqb k k') eqn:E.
    + apply String.eqb_eq in E. subst k'. split; [discriminate |].
      intro H. exfalso. apply H. left. reflexivity.
    + apply String.eqb_neq in E. rewrite IH. split.
      * intros H [Heq | Hin]; [apply E; symmetry; exact Heq | exact (H Hin)].
      * intros H Hin. apply H. right. exact Hin.
Qed.

Lemma dict_keys_set (k k' : string) (v : value) (d : dict) :
  In k (dict_keys (dict_set k' v d)) <-> k = k' \/ In k (dict_keys d).
Proof.
  induction d as [| [k0 v0] d IH]; simpl.
  - split; [intros [H | []]; left; symmetry; exact H
           | intros [H | []]; left; symmetry; exact H].
  - destruct (String.eqb k' k0) eqn:E; simpl.
    + apply String.eqb_eq in E. subst k0. split.
      * intros [H | H]; [left; symmetry; exact H | right; right; exact H].
      * intros [H | [H | H]];
          [left; symmetry; exact H | left; exact H | right; exact H].
    + rewrite IH. split.
      * intros [H | [H | H]];
          [right; left; exact H | left; exact H | right; right; exact H].
      * intros [H | [H | H]];
          [right; left; exact H | left; exact H | right; right; exact H].
Qed.

Lemma dict_set_NoDup (k : string) (v : value) (d : dict) :
  NoDup (dict_keys d) -> NoDup (dict_keys (dict_set k v d)).
Proof.
  induction d as [| [k0 v0] d IH]; simpl; intro Hnd.
  - constructor; [intros [] | constructor].
  - inversion Hnd as [| ? ? Hnotin Hnd']; subst.
    destruct (String.eqb k k0) eqn:E; simpl.
    + constructor; assumption.
    + constructor; [| apply IH; exact Hnd'].
      intro Hin. apply dict_keys_set in Hin. destruct Hin as [Heq | Hin].
      * apply String.eqb_neq in E. apply E. symmetry. exact Heq.
      * exact (Hnotin Hin).
Qed.

Lemma dict_get_update_absent (k : string) (base extra : dict) :
  dict_get k extra = None ->
  dict_get k (dict_update base extra) = dict_get k base.
Proof.
  unfold dict_update. revert base.
  induction extra as [| [k' v'] extra IH]; simpl; intros base Habs.
  - reflexivity.
  - destruct (String.eqb k k') eqn:E; [discriminate |].
    rewrite (IH _ Habs). apply dict_get_set_other.
    apply String.eqb_neq. exact E.
Qed.

Lemma dict_update_keys (k : string) (base extra : dict) :
  In k (dict_keys (dict_update base extra))
  <-> In k (dict_keys base) \/ In k (dict_keys extra).
Proof.
  unfold dict_update. revert base.
  induction extra as [| [k' v'] extra IH]; simpl; intro base.
  - split; [intro H; left; exact H | intros [H | []]; exact H].
  - rewrite IH, dict_keys_set. split.
    + intros [[H | H] | H];
        [right; left; symmetry; exact H | left; exact H | right; right; exact H].
    + intros [H | [H | H]];
        [left; right; exact H | left; left; symmetry; exact H | right; exact H].
Qed.

Lemma dict_update_NoDup (base extra : dict) :
  NoDup (dict_keys base) -> NoDup (dict_keys (dict_update base extra)).
Proof.
  unfold dict_update. revert base.
  induction extra as [| [k' v'] extra IH]; simpl; intros base Hnd.
  - exact Hnd.
  - apply IH. apply dict_set_NoDup. exact Hnd.
Qed.

(** The last entry for a key is the one a fold of updates keeps. *)
Lemma dict_update_last_wins (base l1 l2 : dict) (k : string) (v : value) :
  ~ In k (dict_keys l2) ->
  dict_get k (dict_update base (l1 ++ (k, v) :: l2)) = Some v.
Proof.
  intro Hlast.
  assert (Happ : dict_update base (l1 ++ (k, v) :: l2)
                 = dict_update (dict_set k v (dict_update base l1)) l2)
    by (unfold dict_update; rewrite fold_left_app; reflexivity).
  rewrite Happ.
  apply dict_get_none_not_key in Hlast.
  rewrite (dict_get_update_absent k _ l2 Hlast).
  apply dict_get_set_same.
Qed.

(** ** Maps and folds that may raise *)

Lemma map_raising_Forall2 {A B : Type} (f : A -> result B) (xs : list A)
    (ys : list B) :
  map_raising f xs = inr ys -> Forall2 (fun x y => f x = inr y) xs ys.
Proof.
  revert ys. induction xs as [| x xs IH]; simpl; intros ys H.
  - inversion H. constructor.
  - destruct (f x) as [e | y] eqn:Ex; simpl in H; [discriminate |].
    destruct (map_raising f xs) as [e | ys'] eqn:Exs; simpl in H;
      [discriminate |].
    inversion H; subst. constructor; [exact Ex | apply IH; reflexivity].
Qed.

Lemma Forall2_map_raising {A B : Type} (f : A -> result B) (xs : list A)
    (ys : list B) :
  Forall2 (fun x y => f x = inr y) xs ys -> map_raising f xs = inr ys.
Proof.
  induction 1 as [| x y xs ys Hxy _ IH]; simpl.
  - reflexivity.
  - rewrite Hxy, IH. reflexivity.
Qed.

Lemma map_raising_length {A B : Type} (f : A -> result B) (xs : list A)
    (ys : list B) :
  map_raising f xs = inr ys -> length ys = length xs.
Proof.
  intro H. apply map_raising_Forall2 in H.
  symmetry. exact (Forall2_length H).
Qed.

Lemma Forall2_with_left {A B : Type} (R : A -> B -> Prop) (P : A -> Prop)
    (xs : list A) (ys : list B) :
  Forall P xs -> Forall2 R xs ys -> Forall2 (fun x y => P x /\ R x y) xs ys.
Proof.
  intros HP HR. induction HR as [| x y xs ys Hxy _ IH].
  - constructor.
  - inversion HP; subst. constructor; [split; assumption | apply IH; assumption].
Qed.

Lemma filter_length_lt {A : Type} (p : A -> bool) (xs : list A) (x : A) :
  In x xs -> p x = false -> (length (filter p xs) < length xs)%nat.
Proof.
  induction xs as [| y xs IH]; simpl; intros Hin Hp.
  - destruct Hin.
  - destruct Hin as [Heq | Hin].
    + subst y. rewrite Hp.
      pose proof (filter_length_le p xs). lia.
    + specialize (IH Hin Hp). destruct (p y); simpl; lia.
Qed.

(** ** Storing quotes *)

Section Store.

Context {U : Utils}.

Lemma report_write_errors_batch (errs : list write_error) :
  report_write_errors (BulkWriteError errs) = (reported_rows errs, inr tt).
Proof.
  unfold report_write_errors, reported_rows.
  induction errs as [| err errs IH]; cbn [for_each flat_map].
  - reflexivity.
  - rewrite IH. destruct (contains "duplicate key" (we_errmsg err)); reflexivity.
Qed.

Lemma report_write_errors_other (e : exn) :
  (forall errs, e <> BulkWriteError errs) ->
  report_write_errors e = ([], inl e).
Proof.
  intro H. destruct e; try reflexivity.
  exfalso. exact (H _ eq_refl).
Qed.

Lemma reported_rows_no_write (errs : list write_error) :
  Forall (fun ev => is_write ev = false) (reported_rows errs).
Proof.
  unfold reported_rows. induction errs as [| err errs IH]; simpl.
  - constructor.
  - destruct (contains "duplicate key" (we_errmsg err)); simpl.
    + exact IH.
    + constructor; [reflexivity |]. constructor; [reflexivity | exact IH].
Qed.

Lemma report_write_errors_no_write (e : exn) :
  Forall (fun ev => is_write ev = false) (fst (report_write_errors e)).
Proof.
  destruct e; try (simpl; constructor).
  rewrite report_write_errors_batch. apply reported_rows_no_write.
Qed.

(** [store_quotes] stage by stage: where it can stop, and what it has done to
    the store by then. *)
Lemma store_quotes_stages (a : attempt) (raw : list value) :
  store_quotes a (VList raw) =
  match map_raising format_quote (filter not_none raw) with
  | inl e => ([], inl e)
  | inr formatted =>
      match map_raising (update_index_symbol (clock a))
              (filter not_none raw) with
      | inl e => ([EvPrint (LogQuotes formatted)], inl e)
      | inr ops =>
          match index_reply a with
          | Some e =>
              ([EvPrint (LogQuotes formatted); EvIndexBulkWrite ops], inl e)
          | None =>
              match map_raising map_quote (filter not_none raw) with
              | inl e =>
                  ([EvPrint (LogQuotes formatted); EvIndexBulkWrite ops],
                   inl e)
              | inr docs =>
                  match insert_reply a with
                  | None =>
                      ([EvPrint (LogQuotes formatted); EvIndexBulkWrite ops;
                        EvInsertMany false docs], inr tt)
                  | Some e =>
                      ([EvPrint (LogQuotes formatted); EvIndexBulkWrite ops;
                        EvInsertMany false docs]
                         ++ fst (report_write_errors e),
                       snd (report_write_errors e))
                  end
              end
          end
      end
  end.
Proof.
  unfold store_quotes. simpl.
  destruct (map_raising format_quote (filter not_none raw)) as [e | formatted];
    [reflexivity |]; simpl.
  destruct (map_raising (update_index_symbol (clock a)) (filter not_none raw))
    as [e | ops]; [reflexivity |]; simpl.
  destruct (index_reply a) as [e |]; [reflexivity |]; simpl.
  destruct (map_raising map_quote (filter not_none raw)) as [e | docs];
    [reflexivity |]; simpl.
  destruct (insert_reply a) as [e |]; [| reflexivity]; simpl.
  destruct (report_write_errors e) as [t r]. reflexivity.
Qed.

Lemma no_write_not_in (t : list event) (ev : event) :
  Forall (fun ev => is_write ev = false) t -> is_write ev = true -> ~ In ev t.
Proof.
  intros Hall Hev Hin. rewrite Forall_forall in Hall.
  specialize (Hall ev Hin). congruence.
Qed.

(** If the index write shows in the trace, its operations are the mapped
    entries that are not [None]. *)
Lemma store_quotes_index_inv (a : attempt) (raw : list value)
    (ops : list UpdateOne) :
  In (EvIndexBulkWrite ops) (fst (store_quotes a (VList raw))) ->
  map_raising (update_index_symbol (clock a)) (filter not_none raw) = inr ops.
Proof.
  rewrite store_quotes_stages.
  destruct (map_raising format_quote _) as [e | formatted]; simpl;
    [intros [] |].
  destruct (map_raising (update_index_symbol _) _) as [e | ops0]; simpl.
  - intros [H | []]; discriminate.
  - assert (Hops : forall t,
        In (EvIndexBulkWrite ops)
          (EvPrint (LogQuotes formatted) :: EvIndexBulkWrite ops0 :: t) ->
        (forall x, In x t -> x <> EvIndexBulkWrite ops) ->
        @inr exn _ ops0 = inr ops).
    { intros t [H | [H | H]] Hrest;
        [discriminate | congruence | exfalso; exact (Hrest _ H eq_refl)]. }
    destruct (index_reply a) as [e |]; simpl.
    + intro H. apply (Hops [] H). intros x [].
    + destruct (map_raising map_quote _) as [e | docs]; simpl.
      * intro H. apply (Hops [] H). intros x [].
      * destruct (insert_reply a) as [e |]; simpl.
        -- intro H.
           apply (Hops (EvInsertMany false docs
                          :: fst (report_write_errors e)) H).
           intros x [Hx | Hx] Heq; subst x.
           ++ discriminate.
           ++ exact (no_write_not_in _ (EvIndexBulkWrite ops)
                       (report_write_errors_no_write e) eq_refl Hx).
        -- intro H. apply (Hops [EvInsertMany false docs] H).
           intros x [Hx | []] Heq; subst x. discriminate.
Qed.

(** If the fact insert shows in the trace, the index write was answered
    without an exception, and the whole call has this shape. *)
Lemma store_quotes_insert_inv (a : attempt) (raw : list value) (ord : bool)
    (docs : list value) :
  In (EvInsertMany ord docs) (fst (store_quotes a (VList raw))) ->
  ord = false /\
  index_reply a = None /\
  map_raising map_quote (filter not_none raw) = inr docs /\
  exists formatted ops,
    map_raising format_quote (filter not_none raw) = inr formatted /\
    map_raising (update_index_symbol (clock a)) (filter not_none raw)
    = inr ops /\
    store_quotes a (VList raw)
    = ([EvPrint (LogQuotes formatted); EvIndexBulkWrite ops;
        EvInsertMany false docs]
         ++ match insert_reply a with
            | None => []
            | Some e => fst (report_write_errors e)
            end,
       match insert_reply a with
       | None => inr tt
       | Some e => snd (report_write_errors e)
       end).
Proof.
  rewrite store_quotes_stages.
  destruct (map_raising format_quote _) as [e | formatted]; simpl;
    [intros [] |].
  destruct (map_raising (update_index_symbol _) _) as [e | ops]; simpl.
  { intros [H | []]; discriminate. }
  destruct (index_reply a) as [e |]; simpl.
  { intros [H | [H | []]]; discriminate. }
  destruct (map_raising map_quote _) as [e | docs0]; simpl.
  { intros [H | [H | []]]; discriminate. }
  assert (Hdocs : forall t,
      In (EvInsertMany ord docs)
        (EvPrint (LogQuotes formatted) :: EvIndexBulkWrite ops
           :: EvInsertMany false docs0 :: t) ->
      Forall (fun ev => is_write ev = false) t ->
      ord = false /\ docs0 = docs).
  { intros t [H | [H | [H | H]]] Hrest; try discriminate.
    - inversion H. split; reflexivity.
    - exfalso.
      exact (no_write_not_in _ (EvInsertMany ord docs) Hrest eq_refl H). }
  destruct (insert_reply a) as [e |]; simpl; intro H.
  - destruct (Hdocs (fst (report_write_errors e)) H
                (report_write_errors_no_write e)) as [-> ->].
    repeat split. exists formatted, ops. repeat split.
  - destruct (Hdocs [] H (Forall_nil _)) as [-> ->].
    repeat split. exists formatted, ops. repeat split.
Qed.

End Store.

(** ** What [store_quotes] writes *)

Section StoreClaims.

Context {U : Utils}.

Lemma update_index_symbol_id (timestamp : Z) (datum : value) (op : UpdateOne) :
  update_index_symbol timestamp datum = inr op ->
  exists url,
    subscript datum "instrument" = inr url /\
    parse_instrument_url url = inr (uo_instrument_id op).
Proof.
  unfold update_index_symbol. intro H.
  destruct (py_get datum "has_traded") as [e | ht]; cbn [rbind] in H;
    [discriminate |].
  destruct (py_get datum "updated_at") as [e | raw]; cbn [rbind] in H;
    [discriminate |].
  destruct (parse_updated_at raw) as [e | upd]; cbn [rbind] in H; [discriminate |].
  destruct (py_get datum "trading_halted") as [e | th]; cbn [rbind] in H;
    [discriminate |].
  destruct (subscript datum "instrument") as [e | url]; cbn [rbind] in H;
    [discriminate |].
  destruct (parse_instrument_url url) as [e | id] eqn:Eid; cbn [rbind] in H;
    [discriminate |].
  inversion H; subst op. exists url. split; [reflexivity | exact Eid].
Qed.

Lemma map_quote_id (quote doc : value) :
  (forall q p, pluck DESIRED_QUOTE_KEYS q = inr p ->
               dict_get "instrument_id" p = None) ->
  map_quote quote = inr doc ->
  not_none doc = true /\
  exists url id,
    subscript quote "instrument" = inr url /\
    parse_instrument_url url = inr id /\
    subscript doc "instrument_id" = inr (VStr id).
Proof.
  intros Hpluck. unfold map_quote. intro H.
  destruct (subscript quote "instrument") as [e | url]; cbn [rbind] in H;
    [discriminate |].
  destruct (parse_instrument_url url) as [e | id] eqn:Eid; cbn [rbind] in H;
    [discriminate |].
  destruct (pluck DESIRED_QUOTE_KEYS quote) as [e | p] eqn:Ep; cbn [rbind] in H;
    [discriminate |].
  destruct (subscript (VDict (dict_update [("instrument_id", VStr id)] p))
              "updated_at") as [e | raw]; cbn [rbind] in H; [discriminate |].
  destruct (parse_updated_at raw) as [e | upd]; cbn [rbind] in H; [discriminate |].
  inversion H; subst doc. split; [reflexivity |].
  exists url, id. repeat split; try assumption.
  unfold subscript.
  rewrite (dict_get_set_other "instrument_id" "updated_at")
    by (intro Hk; discriminate Hk).
  rewrite (dict_get_update_absent _ _ _ (Hpluck _ _ Ep)).
  reflexivity.
Qed.

Lemma no_write_index_writes (t : list event) :
  Forall (fun ev => is_write ev = false) t -> index_writes t = [].
Proof.
  unfold index_writes. induction 1 as [| ev t Hev _ IH]; simpl.
  - reflexivity.
  - rewrite IH. destruct ev; try reflexivity; discriminate.
Qed.

(** C3, as the code has it.  The operations of the index write are built from
    the entries of the raw list that are not [None], one operation per such
    entry and in their order, each keyed by the id read from that entry's
    instrument URL; a [None] entry yields no operation. *)
Theorem index_ops_cover_the_non_null_entries (a : attempt) (raw : list value)
    (ops : list UpdateOne) :
  In (EvIndexBulkWrite ops) (trace (store_quotes a (VList raw))) ->
  map_raising (update_index_symbol (clock a)) (filter not_none raw) = inr ops /\
  length ops = length (filter not_none raw) /\
  Forall2
    (fun datum op =>
       not_none datum = true /\
       exists url,
         subscript datum "instrument" = inr url /\
         parse_instrument_url url = inr (uo_instrument_id op))
    (filter not_none raw) ops.
Proof.
  intro Hin. apply store_quotes_index_inv in Hin.
  split; [exact Hin |]. split; [exact (map_raising_length _ _ _ Hin) |].
  pose proof (map_raising_Forall2 _ _ _ Hin) as Hall.
  assert (Hnn : Forall (fun q => not_none q = true) (filter not_none raw)).
  { apply Forall_forall. intros q Hq. apply filter_In in Hq. apply Hq. }
  apply (Forall2_impl
           (R1 := fun q op => not_none q = true /\
                              update_index_symbol (clock a) q = inr op)).
  - intros q op [Hq Hop]. split; [exact Hq |].
    exact (update_index_symbol_id _ _ _ Hop).
  - apply Forall2_with_left; assumption.
Qed.

(** C4, as the code has it.  The index write comes first: what is written to
    the index does not depend on how the fact insert is answered, and the fact
    insert is attempted only right after an index write that was answered
    without an exception. *)
Theorem fact_insert_never_blocks_the_index_write (a : attempt)
    (raw : list value) :
  (forall r,
     index_writes (trace (store_quotes (with_insert_reply a r) (VList raw)))
     = index_writes (trace (store_quotes a (VList raw)))) /\
  (forall ord docs,
     In (EvInsertMany ord docs) (trace (store_quotes a (VList raw))) ->
     index_reply a = None /\
     exists before ops after,
       trace (store_quotes a (VList raw))
       = before ++ EvIndexBulkWrite ops :: EvInsertMany ord docs :: after).
Proof.
  split.
  - assert (Hany : forall b,
        clock b = clock a -> index_reply b = index_reply a ->
        index_writes (trace (store_quotes b (VList raw)))
        = match map_raising format_quote (filter not_none raw) with
          | inl _ => []
          | inr _ =>
              match map_raising (update_index_symbol (clock a))
                      (filter not_none raw) with
              | inl _ => []
              | inr ops => [ops]
              end
          end).
    { intros b Hclock Hindex. unfold trace.
      rewrite store_quotes_stages, Hclock, Hindex.
      destruct (map_raising format_quote _) as [e | formatted];
        [reflexivity |].
      destruct (map_raising (update_index_symbol _) _) as [e | ops];
        [reflexivity |].
      destruct (index_reply a) as [e |]; [reflexivity |].
      destruct (map_raising map_quote _) as [e | docs]; [reflexivity |].
      destruct (insert_reply b) as [e |]; [| reflexivity].
      cbn [fst app index_writes flat_map].
      fold (index_writes (fst (report_write_errors e))).
      rewrite (no_write_index_writes _ (report_write_errors_no_write e)).
      reflexivity. }
    intro r. rewrite (Hany a eq_refl eq_refl).
    apply Hany; reflexivity.
  - intros ord docs Hin. unfold trace in *.
    destruct (store_quotes_insert_inv _ _ _ _ Hin)
      as (-> & Hidx & _ & formatted & ops & _ & _ & Heq).
    split; [exact Hidx |].
    exists [EvPrint (LogQuotes formatted)], ops.
    rewrite Heq. cbn [fst app]. eexists. reflexivity.
Qed.

(** C6.  The documents handed to the fact insert are the mapped entries of the
    raw batch that are not [None]: no more of them than raw entries, fewer
    when the batch holds a [None], none of them [None], and each carrying the
    [instrument_id] read from its quote's instrument URL.  The projection
    [pluck(DESIRED_QUOTE_KEYS, quote)] is assumed not to bring an
    [instrument_id] field of its own. *)
Theorem quote_facts_drop_nulls_and_carry_the_id (a : attempt)
    (raw : list value) (ord : bool) (docs : list value) :
  (forall q p, pluck DESIRED_QUOTE_KEYS q = inr p ->
               dict_get "instrument_id" p = None) ->
  In (EvInsertMany ord docs) (trace (store_quotes a (VList raw))) ->
  (length docs <= length raw)%nat /\
  (In VNone raw -> (length docs < length raw)%nat) /\
  Forall (fun doc => not_none doc = true) docs /\
  Forall2
    (fun quote doc =>
       exists url id,
         subscript quote "instrument" = inr url /\
         parse_instrument_url url = inr id /\
         subscript doc "instrument_id" = inr (VStr id))
    (filter not_none raw) docs.
Proof.
  intros Hpluck Hin.
  destruct (store_quotes_insert_inv _ _ _ _ Hin) as (_ & _ & Hdocs & _).
  pose proof (map_raising_length _ _ _ Hdocs) as Hlen.
  pose proof (map_raising_Forall2 _ _ _ Hdocs) as Hall.
  split; [rewrite Hlen; apply filter_length_le |].
  split.
  { intro Hnull. rewrite Hlen.
    exact (filter_length_lt not_none raw VNone Hnull eq_refl). }
  clear Hdocs Hlen Hin.
  induction Hall as [| q doc qs ds Hq _ [IHnn IHid]].
  - split; constructor.
  - destruct (map_quote_id _ _ Hpluck Hq) as [Hnn Hid].
    split; constructor; assumption.
Qed.

(** C8.  When the fact insert is answered with a batch-write error,
    [store_quotes] returns normally; after the insert it prints, row by row,
    the two lines of each failure whose message does not contain
    [duplicate key], and nothing for the others. *)
Theorem batch_write_errors_are_absorbed (a : attempt) (raw : list value)
    (errs : list write_error) (ord : bool) (docs : list value) :
  insert_reply a = Some (BulkWriteError errs) ->
  In (EvInsertMany ord docs) (trace (store_quotes a (VList raw))) ->
  (exists formatted ops,
     store_quotes a (VList raw)
     = ([EvPrint (LogQuotes formatted); EvIndexBulkWrite ops;
         EvInsertMany false docs] ++ reported_rows errs,
        inr tt)) /\
  (forall err,
     In err errs -> contains "duplicate key" (we_errmsg err) = true ->
     ~ In (EvPrint (LogWriteError err)) (trace (store_quotes a (VList raw)))) /\
  (forall err,
     In err errs -> contains "duplicate key" (we_errmsg err) = false ->
     In (EvPrint (LogWriteError err)) (trace (store_quotes a (VList raw)))).
Proof.
  intros Hreply Hin. unfold trace in *.
  destruct (store_quotes_insert_inv _ _ _ _ Hin)
    as (_ & _ & _ & formatted & ops & _ & _ & Heq).
  rewrite Hreply, report_write_errors_batch in Heq. cbn [fst snd] in Heq.
  split; [exists formatted, ops; exact Heq |].
  rewrite Heq. cbn [fst]. split.
  - intros err _ Hdup Hlogged.
    apply in_app_or in Hlogged. destruct Hlogged as [H | H].
    + destruct H as [H | [H | [H | []]]]; discriminate.
    + unfold reported_rows in H. apply in_flat_map in H.
      destruct H as (err' & _ & H).
      destruct (contains "duplicate key" (we_errmsg err')) eqn:E;
        [destruct H |].
      destruct H as [H | [H | []]]; [discriminate |].
      inversion H; subst err'. congruence.
  - intros err Herr Hother. apply in_or_app. right.
    unfold reported_rows. apply in_flat_map. exists err.
    split; [exact Herr |]. rewrite Hother. right. left. reflexivity.
Qed.

End StoreClaims.

(** ** Popularity *)

Section Popularity.

Context {U : Utils}.

Lemma reduce_popularity_fold (items : list value) (acc m : dict) :
  reduce reduce_popularity items acc = inr m ->
  exists pairs,
    Forall2
      (fun datum p =>
         exists url,
           subscript datum "instrument" = inr url /\
           parse_instrument_url url = inr (fst p) /\
           subscript datum "num_open_positions" = inr (snd p))
      items pairs /\
    m = dict_update acc pairs.
Proof.
  revert acc. induction items as [| datum items IH]; intros acc H.
  - simpl in H. inversion H; subst. exists []. split; [constructor | reflexivity].
  - cbn [reduce] in H. unfold reduce_popularity at 1 in H.
    destruct (subscript datum "instrument") as [e | url] eqn:Eurl;
      cbn [rbind] in H; [discriminate |].
    destruct (parse_instrument_url url) as [e | id] eqn:Eid;
      cbn [rbind] in H; [discriminate |].
    destruct (subscript datum "num_open_positions") as [e | n] eqn:En;
      cbn [rbind] in H; [discriminate |].
    destruct (IH _ H) as (pairs & Hall & Hm).
    exists ((id, n) :: pairs). split.
    + constructor; [| exact Hall].
      exists url. repeat split; assumption.
    + exact Hm.
Qed.

Lemma dict_get_entry (m : dict) (k : string) (v : value) :
  NoDup (dict_keys m) -> In (k, v) m -> dict_get k m = Some v.
Proof.
  induction m as [| [k' v'] m IH]; simpl; intros Hnd Hin.
  - destruct Hin.
  - inversion Hnd as [| ? ? Hnotin Hnd']; subst.
    destruct Hin as [Heq | Hin].
    + inversion Heq; subst. rewrite String.eqb_refl. reflexivity.
    + destruct (String.eqb k k') eqn:E.
      * apply String.eqb_eq in E. subst k'. exfalso. apply Hnotin.
        apply (in_map fst) in Hin. exact Hin.
      * apply IH; assumption.
Qed.

Lemma popularity_rows (timestamp : Z) (m part : dict) :
  (forall k v, In (k, v) part -> dict_get k m = Some v) ->
  map_raising
    (fun key =>
       popularity <~ subscript (VDict m) key ;;
       inr (VDict [("timestamp", VDatetime timestamp);
                   ("instrument_id", VStr key);
                   ("popularity", popularity)]))
    (dict_keys part)
  = inr (map (fun kv => popularity_document timestamp (fst kv) (snd kv)) part).
Proof.
  induction part as [| [k v] part IH]; intro Hpart.
  - reflexivity.
  - assert (Hk : subscript (VDict m) k = inr v).
    { unfold subscript. rewrite (Hpart k v (or_introl eq_refl)). reflexivity. }
    unfold dict_keys in *. cbn [map map_raising fst snd].
    rewrite Hk. cbn [rbind]. rewrite IH.
    + reflexivity.
    + intros k' v' Hin. apply Hpart. right. exact Hin.
Qed.

Lemma store_popularities_rows (timestamp : Z) (r : option exn) (m : dict) :
  NoDup (dict_keys m) ->
  store_popularities timestamp r m
  = ([EvPrint (LogPopularityMap m);
      EvInsertMany true
        (map (fun kv => popularity_document timestamp (fst kv) (snd kv)) m)],
     match r with
     | None => inr tt
     | Some e => inl e
     end).
Proof.
  intro Hnd. unfold store_popularities.
  rewrite (popularity_rows timestamp m m).
  - destruct r; reflexivity.
  - intros k v Hin. apply dict_get_entry; assumption.
Qed.

(** C7.  Folding the results list gives a mapping from the id read from each
    entry's instrument URL to that entry's open-position count; among entries
    with the same id the last one gives the value; and [store_popularities]
    hands [insert_many] one row per key of the mapping, with that key and its
    value. *)
Theorem popularity_fold_keeps_last_and_stores_a_row_per_key
    (items : list value) (m : dict) (timestamp : Z) (r : option exn) :
  reduce reduce_popularity items [] = inr m ->
  (exists pairs,
     Forall2
       (fun datum p =>
          exists url,
            subscript datum "instrument" = inr url /\
            parse_instrument_url url = inr (fst p) /\
            subscript datum "num_open_positions" = inr (snd p))
       items pairs /\
     (forall k, In k (dict_keys m) <-> In k (map fst pairs)) /\
     (forall before k v after,
        pairs = before ++ (k, v) :: after ->
        ~ In k (map fst after) ->
        dict_get k m = Some v)) /\
  NoDup (dict_keys m) /\
  trace (store_popularities timestamp r m)
  = [EvPrint (LogPopularityMap m);
     EvInsertMany true
       (map (fun kv => popularity_document timestamp (fst kv) (snd kv)) m)] /\
  (forall k v,
     dict_get k m = Some v <->
     In (popularity_document timestamp k v)
       (map (fun kv => popularity_document timestamp (fst kv) (snd kv)) m)).
Proof.
  intro Hfold.
  destruct (reduce_popularity_fold _ _ _ Hfold) as (pairs & Hall & Hm).
  assert (Hnd : NoDup (dict_keys m)).
  { subst m. apply dict_update_NoDup. constructor. }
  split; [| split; [exact Hnd | split]].
  - exists pairs. split; [exact Hall |]. split.
    + intro k. subst m. rewrite dict_update_keys. simpl.
      split; [intros [[] | H]; exact H | intro H; right; exact H].
    + intros before k v after Hpairs Hlast. subst m pairs.
      apply dict_update_last_wins. exact Hlast.
  - unfold trace. rewrite (store_popularities_rows _ _ _ Hnd). reflexivity.
  - intros k v. split.
    + intro Hget. apply in_map_iff. exists (k, v). split; [reflexivity |].
      clear - Hget. induction m as [| [k' v'] m IH]; simpl in *.
      * discriminate.
      * destruct (String.eqb k k') eqn:E.
        -- apply String.eqb_eq in E. inversion Hget; subst. left. reflexivity.
        -- right. apply IH. exact Hget.
    + intro Hin. apply in_map_iff in Hin. destruct Hin as ([k' v'] & Heq & Hin).
      inversion Heq; subst. apply dict_get_entry; assumption.
Qed.

End Popularity.

(** ** Which exceptions leave an entry point *)

Section Escape.

Context {U : Utils}.











End Escape.

(** ** Concrete runs *)

Section Runs.

#[local] Existing Instance SpecUtils.utils.

(** The popularity scenario: ids 9 and 2 with counts 7 and 3, one row each. *)
Example popularity_scenario :
  fetch_popularity [Sample.answers Sample.popular] "1,2,3" Sample.one_second
  = ([EvGetUrl "https://api.robinhood.com/instruments/popularity/?ids=1,2,3";
      EvPrint (LogPopularityMap [("9", VInt 7); ("2", VInt 3)]);
      EvInsertMany true
        [popularity_document 7 "9" (VInt 7);
         popularity_document 7 "2" (VInt 3)];
      EvSleep Sample.one_second],
     Returned).
Proof. reflexivity. Qed.

(** A quote batch with a [None] entry: one index operation, one document. *)
Example quote_scenario :
  fetch_quote [Sample.quoted] "AAPL,MSFT" Sample.one_second
  = ([EvQuoteData "AAPL,MSFT";
      EvPrint (LogQuotes [VDict [("symbol", VStr "AAPL");
                                 ("bid", VStr "170.10");
                                 ("ask", VStr "170.12")]]);
      EvIndexBulkWrite [Sample.apple_op];
      EvInsertMany false [Sample.apple_doc];
      EvSleep Sample.one_second],
     Returned).
Proof. reflexivity. Qed.

(** The id is the same with and without the trailing slash. *)
Example instrument_id_trailing_slash :
  parse_instrument_url (VStr "https://api.robinhood.com/instruments/450dfc6d/")
  = inr "450dfc6d" /\
  parse_instrument_url (VStr "https://api.robinhood.com/instruments/450dfc6d")
  = inr "450dfc6d".
Proof. split; reflexivity. Qed.

Example throttle_minutes :
  parse_throttle_res (VStr "Expected available in 2 minutes.")
  = inr (seconds_of 120).
Proof. reflexivity. Qed.

(** In [fetch_quote] neither a JSON decode error nor a [TypeError] is named by
    an [except] clause, so both leave the entry point; [fetch_popularity]
    names both and retries. *)
Example malformed_payload_in_both :
  snd (fetch_quote [Sample.raises JSONDecodeError] "AAPL" Sample.one_second)
  = Raised JSONDecodeError /\
  snd (fetch_quote [Sample.answers (VDict [("results", VList [VInt 5])])]
         "AAPL" Sample.one_second)
  = Raised TypeError /\
  fetch_popularity [Sample.raises JSONDecodeError;
                    Sample.answers Sample.popular] "9,2" Sample.one_second
  = ([EvGetUrl (popularity_url "9,2"); EvPrint LogHtml;
      EvSleep (seconds_of 30)]
       ++ fst (fetch_popularity [Sample.answers Sample.popular]
                 "9,2" Sample.one_second),
     Returned).
Proof. repeat split. Qed.


(** C3, the claim as written, fails: of the two raw entries [None; apple]
    only the second gets an index operation, and mapping every raw entry would
    have raised on the first. *)
Lemma index_ops_skip_null_entries :
  index_writes (trace (store_quotes Sample.quoted (VList Sample.batch)))
  = [[Sample.apple_op]] /\
  length [Sample.apple_op] <> length Sample.batch /\
  map_raising (update_index_symbol (clock Sample.quoted)) Sample.batch
  = inl AttributeError.
Proof. repeat split. simpl. discriminate. Qed.

(** C4, the claim as written, fails: when the index write raises,
    [store_quotes] raises too and the fact insert is never attempted. *)
Lemma index_failure_blocks_the_fact_insert :
  store_quotes Sample.index_down (VList Sample.batch)
  = ([EvPrint (LogQuotes [VDict [("symbol", VStr "AAPL");
                                 ("bid", VStr "170.10");
                                 ("ask", VStr "170.12")]]);
      EvIndexBulkWrite [Sample.apple_op]],
     inl (BulkWriteError [Sample.oversized_row])) /\
  fact_inserts (trace (store_quotes Sample.index_down (VList Sample.batch)))
  = [] /\
  snd (fetch_quote [Sample.index_down] "AAPL,MSFT" Sample.one_second)
  = Raised (BulkWriteError [Sample.oversized_row]).
Proof. repeat split. Qed.

End Runs.

(** ** The theorems at concrete inputs *)

Section Witnesses.

#[local] Existing Instance SpecUtils.utils.

Lemma only_exact_sentinel_completes_witness :
  (exists t, trace (fetch_quote [Sample.quoted] "DONE" Sample.one_second)
             = EvQuoteData "DONE" :: t) /\
  count is_finished
    (trace (fetch_quote [Sample.quoted] "__done" Sample.one_second)) = 0%nat /\
  (exists t, trace (fetch_popularity [Sample.quoted] " __DONE "
                      Sample.one_second)
             = EvGetUrl (popularity_url " __DONE ") :: t).
Proof.
  assert (H1 : "DONE" <> "__DONE") by (intro H; discriminate H).
  assert (H2 : "__done" <> "__DONE") by (intro H; discriminate H).
  assert (H3 : " __DONE " <> "__DONE") by (intro H; discriminate H).
  split; [| split].
  - exact (proj1 (only_exact_sentinel_completes
                    [Sample.quoted] "DONE" Sample.one_second H1)).
  - exact (proj1 (proj2 (only_exact_sentinel_completes
                           [Sample.quoted] "__done" Sample.one_second H2))).
  - exact (proj1 (proj2 (proj2 (only_exact_sentinel_completes
                                  [Sample.quoted] " __DONE "
                                  Sample.one_second H3)))).
Defined.

Lemma index_ops_cover_the_non_null_entries_witness :
  length [Sample.apple_op] = length (filter not_none Sample.batch).
Proof.
  assert (Hin : In (EvIndexBulkWrite [Sample.apple_op])
                  (trace (store_quotes Sample.quoted (VList Sample.batch)))).
  { right. left. reflexivity. }
  exact (proj1 (proj2 (index_ops_cover_the_non_null_entries
                         Sample.quoted Sample.batch [Sample.apple_op] Hin))).
Defined.

Lemma fact_insert_never_blocks_the_index_write_witness :
  index_writes
    (trace (store_quotes Sample.rows_rejected (VList Sample.batch)))
  = index_writes (trace (store_quotes Sample.quoted (VList Sample.batch))) /\
  index_reply Sample.quoted = None.
Proof.
  assert (Hin : In (EvInsertMany false [Sample.apple_doc])
                  (trace (store_quotes Sample.quoted (VList Sample.batch)))).
  { right. right. left. reflexivity. }
  destruct (fact_insert_never_blocks_the_index_write
              Sample.quoted Sample.batch) as [Hindex Hinsert].
  split.
  - exact (Hindex (Some (BulkWriteError [Sample.duplicate_row;
                                         Sample.oversized_row]))).
  - exact (proj1 (Hinsert false [Sample.apple_doc] Hin)).
Defined.

Lemma pluck_brings_no_instrument_id (q : value) (p : dict) :
  pluck DESIRED_QUOTE_KEYS q = inr p -> dict_get "instrument_id" p = None.
Proof.
  destruct q; try (intro H; discriminate H).
  intro H. injection H as <-. simpl.
  destruct (dict_get "symbol" d); destruct (dict_get "bid_price" d);
    destruct (dict_get "ask_price" d); destruct (dict_get "updated_at" d);
    reflexivity.
Defined.

Lemma quote_facts_drop_nulls_and_carry_the_id_witness :
  (length [Sample.apple_doc] < length Sample.batch)%nat /\
  Forall (fun doc => not_none doc = true) [Sample.apple_doc].
Proof.
  assert (Hin : In (EvInsertMany false [Sample.apple_doc])
                  (trace (store_quotes Sample.quoted (VList Sample.batch)))).
  { right. right. left. reflexivity. }
  assert (Hnull : In VNone Sample.batch) by (left; reflexivity).
  destruct (quote_facts_drop_nulls_and_carry_the_id
              Sample.quoted Sample.batch false [Sample.apple_doc]
              pluck_brings_no_instrument_id Hin)
    as (_ & Hlt & Hnn & _).
  split; [exact (Hlt Hnull) | exact Hnn].
Defined.

Lemma batch_write_errors_are_absorbed_witness :
  exists formatted ops,
    store_quotes Sample.rows_rejected (VList Sample.batch)
    = ([EvPrint (LogQuotes formatted); EvIndexBulkWrite ops;
        EvInsertMany false [Sample.apple_doc]]
         ++ [EvPrint LogUnhandledWrite;
             EvPrint (LogWriteError Sample.oversized_row)],
       inr tt).
Proof.
  assert (Hin : In (EvInsertMany false [Sample.apple_doc])
                  (trace (store_quotes Sample.rows_rejected
                            (VList Sample.batch)))).
  { right. right. left. reflexivity. }
  exact (proj1 (batch_write_errors_are_absorbed
                  Sample.rows_rejected Sample.batch
                  [Sample.duplicate_row; Sample.oversized_row]
                  false [Sample.apple_doc] eq_refl Hin)).
Defined.

Lemma popularity_fold_keeps_last_and_stores_a_row_per_key_witness :
  NoDup (dict_keys [("9", VInt 7); ("2", VInt 3)]) /\
  trace (store_popularities 7 None [("9", VInt 7); ("2", VInt 3)])
  = [EvPrint (LogPopularityMap [("9", VInt 7); ("2", VInt 3)]);
     EvInsertMany true
       [popularity_document 7 "9" (VInt 7);
        popularity_document 7 "2" (VInt 3)]].
Proof.
  assert (Hfold :
    reduce reduce_popularity
      [VDict [("instrument", VStr "https://api.robinhood.com/instruments/9/");
              ("num_open_positions", VInt 7)];
       VDict [("instrument", VStr "https://api.robinhood.com/instruments/2/");
              ("num_open_positions", VInt 3)]] []
    = inr [("9", VInt 7); ("2", VInt 3)]) by reflexivity.
  destruct (popularity_fold_keeps_last_and_stores_a_row_per_key
              _ _ 7 None Hfold) as (_ & Hnd & Hrows & _).
  split; [exact Hnd | exact Hrows].
Defined.

End Witnesses.

(** ** What a run may contain *)

Section RunEvents.

Context {U : Utils}.

Lemma store_quotes_quote_events (symbols : string) (a : attempt)
    (quotes : value) :
  Forall (quote_event symbols) (fst (store_quotes a quotes)).
Proof.
  unfold store_quotes, insert_many, bulk_write, print.
  repeat trace_step; try exact I.
  unfold report_write_errors. destruct e; repeat trace_step.
  destruct (negb _); unfold print; repeat trace_step; exact I.
Qed.

Lemma store_popularities_popularity_events (ids : string) (timestamp : Z)
    (r : option exn) (m : dict) :
  Forall (popularity_event ids) (fst (store_popularities timestamp r m)).
Proof.
  unfold store_popularities, insert_many, print.
  repeat trace_step; exact I.
Qed.

Lemma quote_except_quote_events (a : attempt) (symbols : string)
    (again : run) (e : exn) :
  Forall (quote_event symbols) (fst again) ->
  Forall (quote_event symbols) (fst (quote_except a symbols again e)).
Proof.
  intro Hagain. unfold quote_except, sleep, print.
  destruct e; try (simpl; constructor); repeat trace_step; try exact Hagain.
  destruct a0 as [res detail]. destruct (negb (truthy detail));
    repeat trace_step; try exact Hagain.
  all: first [exact I | simpl; constructor].
Qed.

Lemma popularity_except_popularity_events (a : attempt) (ids : string)
    (again : run) (e : exn) :
  Forall (popularity_event ids) (fst again) ->
  Forall (popularity_event ids) (fst (popularity_except a again e)).
Proof.
  intro Hagain. unfold popularity_except, call_self, sleep, print.
  destruct e; try (simpl; constructor); repeat trace_step; try exact Hagain.
  destruct a0 as [res results]. destruct (negb (truthy results));
    repeat trace_step; try exact Hagain.
  all: first [exact I | simpl; constructor].
Qed.

Lemma fetch_quote_quote_events (w : list attempt) (symbols : string)
    (cooldown : Q) :
  Forall (quote_event symbols) (fst (fetch_quote w symbols cooldown)).
Proof.
  induction w as [| a w IH].
  - simpl. destruct (String.eqb symbols "__DONE"); simpl.
    + constructor; [exact I |]. constructor; [exact I | constructor].
    + constructor; [reflexivity | constructor].
  - simpl. destruct (String.eqb symbols "__DONE") eqn:E.
    + simpl. constructor; [exact I |]. constructor; [exact I | constructor].
    + apply trace_try_run_all.
      * unfold quote_try, sleep.
        repeat first [apply store_quotes_quote_events | trace_step];
          exact I.
      * intros e _. apply quote_except_quote_events.
        exact IH.
Qed.

Lemma fetch_popularity_popularity_events (w : list attempt) (ids : string)
    (cooldown : Q) :
  Forall (popularity_event ids) (fst (fetch_popularity w ids cooldown)).
Proof.
  induction w as [| a w IH].
  - simpl. destruct (String.eqb ids "__DONE"); simpl.
    + constructor; [exact I |]. constructor; [exact I | constructor].
    + constructor; [reflexivity | constructor].
  - simpl. destruct (String.eqb ids "__DONE") eqn:E.
    + simpl. constructor; [exact I |]. constructor; [exact I | constructor].
    + apply trace_try_run_all.
      * unfold popularity_try, sleep.
        repeat first [apply store_popularities_popularity_events | trace_step];
          exact I.
      * intros e _. apply popularity_except_popularity_events.
        exact IH.
Qed.

(** X12.  In a run of [fetch_quote] every API call is [quote_data] on the
    symbols the run was called with, every insert is unordered, and the
    popularity endpoint and the popularity setter are never used. *)
Theorem fetch_quote_stays_on_its_batch (w : list attempt) (symbols : string)
    (cooldown : Q) :
  Forall (quote_event symbols) (trace (fetch_quote w symbols cooldown)).
Proof. exact (fetch_quote_quote_events w symbols cooldown). Qed.

(** X13.  In a run of [fetch_popularity] every API call is for the popularity
    URL of the ids the run was called with, every insert is ordered, and the
    index collection, the quote endpoint and the quote setter are never
    used. *)
Theorem fetch_popularity_stays_on_its_batch (w : list attempt) (ids : string)
    (cooldown : Q) :
  Forall (popularity_event ids) (trace (fetch_popularity w ids cooldown)).
Proof. exact (fetch_popularity_popularity_events w ids cooldown). Qed.

End RunEvents.

(** ** One attempt, case by case *)

Section Attempts.

Context {U : Utils}.

Lemma quote_try_with_results (a : attempt) (symbols : string) (cooldown : Q)
    (d : dict) (results : value) :
  api_reply a = inr (VDict d) ->
  dict_get "results" d = Some results ->
  quote_try a symbols cooldown
  = (EvQuoteData symbols
       :: fst (store_quotes a results)
       ++ match snd (store_quotes a results) with
          | inr _ => [EvSleep cooldown]
          | inl _ => []
          end,
     match snd (store_quotes a results) with
     | inr _ => inr tt
     | inl e => inl e
     end).
Proof.
  intros Hres Hresults. unfold quote_try. rewrite Hres.
  cbn [emit lift bind fst snd app].
  unfold subscript. rewrite Hresults.
  destruct (store_quotes a results) as [t [e | []]]; simpl.
  - rewrite app_nil_r. reflexivity.
  - reflexivity.
Qed.

Lemma popularity_try_with_fold (a : attempt) (ids : string) (cooldown : Q)
    (d : dict) (results : value) (items : list value) (m : dict) :
  api_reply a = inr (VDict d) ->
  dict_get "results" d = Some results ->
  py_iter results = inr items ->
  reduce reduce_popularity items [] = inr m ->
  popularity_try a ids cooldown
  = ([EvGetUrl (popularity_url ids);
      EvPrint (LogPopularityMap m);
      EvInsertMany true
        (map (fun kv => popularity_document (clock a) (fst kv) (snd kv)) m)]
       ++ match insert_reply a with
          | None => [EvSleep cooldown]
          | Some _ => []
          end,
     match insert_reply a with
     | None => inr tt
     | Some e => inl e
     end).
Proof.
  intros Hres Hresults Hiter Hfold.
  assert (Hnd : NoDup (dict_keys m)).
  { destruct (reduce_popularity_fold _ _ _ Hfold) as (pairs & _ & ->).
    apply dict_update_NoDup. constructor. }
  unfold popularity_try. rewrite Hres.
  cbn [emit lift bind fst snd app].
  unfold subscript. rewrite Hresults.
  cbn [emit lift bind fst snd app]. rewrite Hiter.
  cbn [bind fst snd app]. rewrite Hfold.
  cbn [bind fst snd app].
  rewrite (store_popularities_rows _ _ _ Hnd).
  destruct (insert_reply a); reflexivity.
Qed.

(** X1.  A response whose results normalise and whose index write goes
    through: [fetch_quote] prints the quotes, writes the index, inserts the
    facts, prints the rows of a batch-write error if the insert raised one,
    then sleeps the pacing delay and returns; the rest of the script is not
    touched. *)
Theorem fetch_quote_stores_then_paces (a : attempt) (w : list attempt)
    (symbols : string) (cooldown : Q) (d : dict) (raw formatted : list value)
    (ops : list UpdateOne) (docs : list value)
    (errs : option (list write_error)) :
  symbols <> "__DONE" ->
  api_reply a = inr (VDict d) ->
  dict_get "results" d = Some (VList raw) ->
  map_raising format_quote (filter not_none raw) = inr formatted ->
  map_raising (update_index_symbol (clock a)) (filter not_none raw) = inr ops ->
  index_reply a = None ->
  map_raising map_quote (filter not_none raw) = inr docs ->
  insert_reply a = option_map BulkWriteError errs ->
  fetch_quote (a :: w) symbols cooldown
  = ([EvQuoteData symbols;
      EvPrint (LogQuotes formatted);
      EvIndexBulkWrite ops;
      EvInsertMany false docs]
       ++ match errs with
          | None => []
          | Some rows => reported_rows rows
          end
       ++ [EvSleep cooldown],
     Returned).
Proof.
  intros Hne Hres Hresults Hfmt Hops Hidx Hdocs Hins.
  rewrite (fetch_quote_step _ _ _ _ Hne),
    (quote_try_with_results _ _ _ _ _ Hres Hresults),
    store_quotes_stages, Hfmt, Hops, Hidx, Hdocs, Hins.
  destruct errs as [rows |]; cbn [option_map].
  - rewrite report_write_errors_batch. cbn [fst snd try_run app].
    reflexivity.
  - reflexivity.
Qed.

(** X2.  A response whose results fold into a mapping, with the insert going
    through: [fetch_popularity] prints the mapping, inserts one row per key,
    sleeps the pacing delay and returns. *)
Theorem fetch_popularity_stores_then_paces (a : attempt) (w : list attempt)
    (ids : string) (cooldown : Q) (d : dict) (results : value)
    (items : list value) (m : dict) :
  ids <> "__DONE" ->
  api_reply a = inr (VDict d) ->
  dict_get "results" d = Some results ->
  py_iter results = inr items ->
  reduce reduce_popularity items [] = inr m ->
  insert_reply a = None ->
  fetch_popularity (a :: w) ids cooldown
  = ([EvGetUrl (popularity_url ids);
      EvPrint (LogPopularityMap m);
      EvInsertMany true
        (map (fun kv => popularity_document (clock a) (fst kv) (snd kv)) m);
      EvSleep cooldown],
     Returned).
Proof.
  intros Hne Hres Hresults Hiter Hfold Hins.
  rewrite (fetch_popularity_step _ _ _ _ Hne),
    (popularity_try_with_fold _ _ _ _ _ _ _ Hres Hresults Hiter Hfold), Hins.
  reflexivity.
Qed.

(** X17.  [store_popularities] guards nothing: when the insert raises an
    exception that [fetch_popularity] does not name, a batch-write error
    included, it leaves the entry point right after the insert, without the
    pacing sleep. *)
Theorem fetch_popularity_insert_failure_escapes (a : attempt)
    (w : list attempt) (ids : string) (cooldown : Q) (d : dict)
    (results : value) (items : list value) (m : dict) (e : exn) :
  ids <> "__DONE" ->
  api_reply a = inr (VDict d) ->
  dict_get "results" d = Some results ->
  py_iter results = inr items ->
  reduce reduce_popularity items [] = inr m ->
  insert_reply a = Some e ->
  popularity_names e = false ->
  fetch_popularity (a :: w) ids cooldown
  = ([EvGetUrl (popularity_url ids);
      EvPrint (LogPopularityMap m);
      EvInsertMany true
        (map (fun kv => popularity_document (clock a) (fst kv) (snd kv)) m)],
     Raised e).
Proof.
  intros Hne Hres Hresults Hiter Hfold Hins Hname.
  rewrite (fetch_popularity_step _ _ _ _ Hne),
    (popularity_try_with_fold _ _ _ _ _ _ _ Hres Hresults Hiter Hfold), Hins.
  destruct e; try discriminate Hname; reflexivity.
Qed.

(** X3.  What [fetch_quote] does when the API call itself raises: a read
    timeout is retried after 30 seconds, an unknown ticker is logged and
    dropped without a sleep, a [KeyError] finds [res] unbound in its clause
    and leaves as [UnboundLocalError], and every other exception leaves as it
    is. *)
Theorem fetch_quote_when_the_call_raises (a : attempt) (w : list attempt)
    (symbols : string) (cooldown : Q) (e : exn) :
  symbols <> "__DONE" ->
  api_reply a = inl e ->
  fetch_quote (a :: w) symbols cooldown
  = match e with
    | ReadTimeout =>
        (quote_timeout_round symbols ++ fst (fetch_quote w symbols cooldown),
         snd (fetch_quote w symbols cooldown))
    | InvalidTickerSymbol =>
        ([EvQuoteData symbols; EvPrint (LogBadSymbols symbols)], Returned)
    | KeyError => ([EvQuoteData symbols], Raised UnboundLocalError)
    | _ => ([EvQuoteData symbols], Raised e)
    end.
Proof.
  intros Hne Hapi.
  rewrite (fetch_quote_step _ _ _ _ Hne), (quote_try_api_raises _ _ _ _ Hapi).
  destruct e; try reflexivity.
  - unfold try_run, quote_except, bound_res. rewrite Hapi. reflexivity.
  - simpl. destruct (fetch_quote w symbols cooldown). reflexivity.
Qed.

(** X4.  What [fetch_popularity] does when the API call itself raises: a read
    timeout, a [TypeError] and a JSON decode error are each retried after 30
    seconds, a [KeyError] leaves as [UnboundLocalError], and every other
    exception leaves as it is. *)
Theorem fetch_popularity_when_the_call_raises (a : attempt)
    (w : list attempt) (ids : string) (cooldown : Q) (e : exn) :
  ids <> "__DONE" ->
  api_reply a = inl e ->
  fetch_popularity (a :: w) ids cooldown
  = match e with
    | ReadTimeout =>
        (popularity_timeout_round ids
           ++ fst (fetch_popularity w ids cooldown),
         snd (fetch_popularity w ids cooldown))
    | TypeError =>
        ([EvGetUrl (popularity_url ids); EvPrint LogGarbage;
          EvSleep (seconds_of 30)]
           ++ fst (fetch_popularity w ids cooldown),
         snd (fetch_popularity w ids cooldown))
    | JSONDecodeError =>
        ([EvGetUrl (popularity_url ids); EvPrint LogHtml;
          EvSleep (seconds_of 30)]
           ++ fst (fetch_popularity w ids cooldown),
         snd (fetch_popularity w ids cooldown))
    | KeyError => ([EvGetUrl (popularity_url ids)], Raised UnboundLocalError)
    | _ => ([EvGetUrl (popularity_url ids)], Raised e)
    end.
Proof.
  intros Hne Hapi.
  rewrite (fetch_popularity_step _ _ _ _ Hne),
    (popularity_try_api_raises _ _ _ _ Hapi).
  destruct e; try reflexivity.
  - unfold try_run, popularity_except, bound_res. rewrite Hapi. reflexivity.
  - simpl. destruct (fetch_popularity w ids cooldown). reflexivity.
  - simpl. destruct (fetch_popularity w ids cooldown). reflexivity.
  - simpl. destruct (fetch_popularity w ids cooldown). reflexivity.
Qed.

End Attempts.

(** ** Responses of an unexpected shape *)

Section Shapes.

Context {U : Utils}.

Lemma py_get_default (d : dict) (k : string) :
  py_get (VDict d) k = inr (dict_get_default k d).
Proof. unfold py_get, dict_get_default. destruct (dict_get k d); reflexivity. Qed.

(** The [KeyError] clause of [fetch_quote] on a bound response whose detail is
    missing or falsy. *)
Lemma quote_except_unknown (a : attempt) (symbols : string) (again : run)
    (d : dict) :
  api_reply a = inr (VDict d) ->
  truthy (dict_get_default "detail" d) = false ->
  quote_except a symbols again KeyError
  = ([EvPrint (LogUnexpectedQuote (VDict d)); EvSleep (seconds_of 120)],
     Returned).
Proof.
  intros Hres Hfalsy. unfold quote_except, bound_res. rewrite Hres.
  cbn [lift bind fst snd app ret]. rewrite py_get_default.
  cbn [lift bind fst snd app ret and_then]. rewrite Hfalsy. reflexivity.
Qed.

(** X5.  A response without [results] and without a truthy [detail]:
    [fetch_quote] prints it, sleeps 120 seconds and returns; it does not call
    the API again. *)
Theorem fetch_quote_unknown_response_is_abandoned (a : attempt)
    (w : list attempt) (symbols : string) (cooldown : Q) (d : dict) :
  symbols <> "__DONE" ->
  api_reply a = inr (VDict d) ->
  dict_get "results" d = None ->
  truthy (dict_get_default "detail" d) = false ->
  fetch_quote (a :: w) symbols cooldown
  = ([EvQuoteData symbols;
      EvPrint (LogUnexpectedQuote (VDict d));
      EvSleep (seconds_of 120)],
     Returned).
Proof.
  intros Hne Hres Hnores Hfalsy.
  rewrite (fetch_quote_step _ _ _ _ Hne).
  assert (Htry : quote_try a symbols cooldown
                 = ([EvQuoteData symbols], inl KeyError)).
  { unfold quote_try. rewrite Hres. cbn [emit lift bind fst snd app].
    unfold subscript. rewrite Hnores. reflexivity. }
  rewrite Htry. cbn [try_run].
  rewrite (quote_except_unknown _ _ _ _ Hres Hfalsy). reflexivity.
Qed.


(** X7.  A response that is no dict, or whose [results] cannot be iterated:
    the [TypeError] is caught in [fetch_popularity], which prints the garbage
    line, sleeps 30 seconds and runs again on the same ids. *)
Theorem fetch_popularity_garbage_is_retried (a : attempt) (w : list attempt)
    (ids : string) (cooldown : Q) (res : value) :
  ids <> "__DONE" ->
  api_reply a = inr res ->
  (subscript res "results" = inl TypeError \/
   exists results,
     subscript res "results" = inr results /\
     py_iter results = inl TypeError) ->
  fetch_popularity (a :: w) ids cooldown
  = ([EvGetUrl (popularity_url ids); EvPrint LogGarbage;
      EvSleep (seconds_of 30)]
       ++ fst (fetch_popularity w ids cooldown),
     snd (fetch_popularity w ids cooldown)).
Proof.
  intros Hne Hres Hshape.
  rewrite (fetch_popularity_step _ _ _ _ Hne).
  assert (Htry : popularity_try a ids cooldown
                 = ([EvGetUrl (popularity_url ids)], inl TypeError)).
  { unfold popularity_try. rewrite Hres. cbn [emit lift bind fst snd app].
    destruct Hshape as [Hsub | (results & Hsub & Hiter)]; rewrite Hsub.
    - reflexivity.
    - cbn [bind fst snd app]. rewrite Hiter. reflexivity. }
  rewrite Htry. simpl.
  destruct (fetch_popularity w ids cooldown). reflexivity.
Qed.

(** X8.  A popularity response with a non-empty [results] and no [detail], in
    which an entry lacks [instrument] or [num_open_positions]: the [KeyError]
    clause passes its test on [results], prints the response and raises
    [KeyError] itself on [res["detail"]]; the exception leaves the entry
    point and nothing is stored. *)
Theorem fetch_popularity_bad_entry_escapes (a : attempt) (w : list attempt)
    (ids : string) (cooldown : Q) (d : dict) (results : value)
    (items : list value) :
  ids <> "__DONE" ->
  api_reply a = inr (VDict d) ->
  dict_get "results" d = Some results ->
  truthy results = true ->
  py_iter results = inr items ->
  reduce reduce_popularity items [] = inl KeyError ->
  dict_get "detail" d = None ->
  fetch_popularity (a :: w) ids cooldown
  = ([EvGetUrl (popularity_url ids); EvPrint (LogRes (VDict d))],
     Raised KeyError).
Proof.
  intros Hne Hres Hresults Htruthy Hiter Hfold Hnodetail.
  rewrite (fetch_popularity_step _ _ _ _ Hne).
  assert (Htry : popularity_try a ids cooldown
                 = ([EvGetUrl (popularity_url ids)], inl KeyError)).
  { unfold popularity_try. rewrite Hres. cbn [emit lift bind fst snd app].
    unfold subscript. rewrite Hresults. cbn [bind fst snd app].
    rewrite Hiter. cbn [bind fst snd app]. rewrite Hfold. reflexivity. }
  rewrite Htry. cbn [try_run].
  unfold popularity_except, bound_res. rewrite Hres.
  cbn [lift bind fst snd app ret]. rewrite py_get_default.
  unfold dict_get_default. rewrite Hresults.
  cbn [lift bind fst snd app ret and_then]. rewrite Htruthy.
  cbn [negb print emit lift bind fst snd app].
  unfold subscript. rewrite Hnodetail. reflexivity.
Qed.

(** X11.  [fetch_popularity] reaches the insert only when the whole results
    list folded: the response is a dict, every entry has an [instrument] and
    a [num_open_positions], and the rows are those of the folded mapping. *)
Theorem popularity_insert_needs_the_whole_fold (a : attempt) (ids : string)
    (cooldown : Q) (ord : bool) (rows : list value) :
  In (EvInsertMany ord rows) (trace (popularity_try a ids cooldown)) ->
  exists d results items m,
    api_reply a = inr (VDict d) /\
    dict_get "results" d = Some results /\
    py_iter results = inr items /\
    reduce reduce_popularity items [] = inr m /\
    Forall
      (fun datum =>
         exists url n,
           subscript datum "instrument" = inr url /\
           subscript datum "num_open_positions" = inr n)
      items /\
    ord = true /\
    rows = map (fun kv => popularity_document (clock a) (fst kv) (snd kv)) m.
Proof.
  unfold trace. intro Hin.
  assert (Hstop : forall e,
      popularity_try a ids cooldown = ([EvGetUrl (popularity_url ids)], inl e)
      -> False).
  { intros e Heq. rewrite Heq in Hin. destruct Hin as [H | []]. discriminate H. }
  destruct (api_reply a) as [e | res] eqn:Hres.
  { exfalso. apply (Hstop e). apply popularity_try_api_raises. exact Hres. }
  assert (Hdict : exists d, res = VDict d).
  { destruct res; try (exfalso; apply (Hstop TypeError);
                       unfold popularity_try; rewrite Hres; reflexivity).
    exists d. reflexivity. }
  destruct Hdict as [d ->].
  destruct (dict_get "results" d) as [results |] eqn:Hresults.
  2:{ exfalso. apply (Hstop KeyError). unfold popularity_try. rewrite Hres.
      cbn [emit lift bind fst snd app]. unfold subscript. rewrite Hresults.
      reflexivity. }
  destruct (py_iter results) as [e | items] eqn:Hiter.
  { exfalso. apply (Hstop e). unfold popularity_try. rewrite Hres.
    cbn [emit lift bind fst snd app]. unfold subscript. rewrite Hresults.
    cbn [bind fst snd app]. rewrite Hiter. reflexivity. }
  destruct (reduce reduce_popularity items []) as [e | m] eqn:Hfold.
  { exfalso. apply (Hstop e). unfold popularity_try. rewrite Hres.
    cbn [emit lift bind fst snd app]. unfold subscript. rewrite Hresults.
    cbn [bind fst snd app]. rewrite Hiter. cbn [bind fst snd app].
    rewrite Hfold. reflexivity. }
  rewrite (popularity_try_with_fold _ _ _ _ _ _ _ Hres Hresults Hiter Hfold)
    in Hin.
  exists d, results, items, m. repeat split; try assumption.
  - destruct (reduce_popularity_fold _ _ _ Hfold) as (pairs & Hall & _).
    clear - Hall. induction Hall as [| datum p items pairs Hd _ IH].
    + constructor.
    + constructor; [| exact IH].
      destruct Hd as (url & Hurl & _ & Hn). exists url, (snd p).
      split; assumption.
  - cbn [fst app] in Hin.
    destruct Hin as [H | [H | [H | H]]]; try discriminate H.
    + injection H as <- _. reflexivity.
    + destruct (insert_reply a);
        [destruct H | destruct H as [H | []]; discriminate H].
  - cbn [fst app] in Hin.
    destruct Hin as [H | [H | [H | H]]]; try discriminate H.
    + injection H as _ <-. reflexivity.
    + destruct (insert_reply a);
        [destruct H | destruct H as [H | []]; discriminate H].
Qed.

End Shapes.

(** ** More on what [store_quotes] writes *)

Section StoreMore.

Context {U : Utils}.

Lemma format_quote_fields (quote formatted : value) :
  format_quote quote = inr formatted ->
  exists symbol bid ask,
    subscript quote "symbol" = inr symbol /\
    subscript quote "bid_price" = inr bid /\
    subscript quote "ask_price" = inr ask.
Proof.
  unfold format_quote. intro H.
  destruct (subscript quote "symbol") as [e | symbol]; cbn [rbind] in H;
    [discriminate |].
  destruct (subscript quote "bid_price") as [e | bid]; cbn [rbind] in H;
    [discriminate |].
  destruct (subscript quote "ask_price") as [e | ask]; cbn [rbind] in H;
    [discriminate |].
  exists symbol, bid, ask. repeat split.
Qed.

Lemma Forall2_left {A B : Type} (R : A -> B -> Prop) (P : A -> Prop)
    (xs : list A) (ys : list B) :
  (forall x y, R x y -> P x) -> Forall2 R xs ys -> Forall P xs.
Proof.
  intros HRP H. induction H as [| x y xs ys Hxy _ IH]; constructor.
  - exact (HRP _ _ Hxy).
  - exact IH.
Qed.

Lemma Forall2_through {A B C : Type} (R1 : A -> B -> Prop)
    (R2 : A -> C -> Prop) (R : B -> C -> Prop) (xs : list A) (ys : list B)
    (zs : list C) :
  (forall x y z, R1 x y -> R2 x z -> R y z) ->
  Forall2 R1 xs ys -> Forall2 R2 xs zs -> Forall2 R ys zs.
Proof.
  intros Hcomp H1. revert zs.
  induction H1 as [| x y xs ys Hxy _ IH]; intros zs H2; inversion H2; subst.
  - constructor.
  - constructor; [eapply Hcomp; eassumption | apply IH; assumption].
Qed.

(** X9.  [store_quotes] writes nothing unless every entry that is not [None]
    carries [symbol], [bid_price], [ask_price] and [instrument]: one entry
    without them keeps the whole batch out of both collections. *)
Theorem store_quotes_writes_only_whole_batches (a : attempt)
    (raw : list value) (ev : event) :
  In ev (trace (store_quotes a (VList raw))) ->
  is_write ev = true ->
  Forall
    (fun quote =>
       exists symbol bid ask url,
         subscript quote "symbol" = inr symbol /\
         subscript quote "bid_price" = inr bid /\
         subscript quote "ask_price" = inr ask /\
         subscript quote "instrument" = inr url)
    (filter not_none raw).
Proof.
  unfold trace. rewrite store_quotes_stages.
  destruct (map_raising format_quote (filter not_none raw))
    as [e | formatted] eqn:Hfmt; [intros [] |].
  destruct (map_raising (update_index_symbol (clock a)) (filter not_none raw))
    as [e | ops] eqn:Hops.
  { intros [H | []] Hw. subst ev. discriminate Hw. }
  intros _ _.
  apply map_raising_Forall2 in Hfmt. apply map_raising_Forall2 in Hops.
  revert ops Hops.
  induction Hfmt as [| q f qs fs Hq _ IH]; intros ops Hops.
  - constructor.
  - inversion Hops as [| ? op ? ops' Hop Hops']; subst.
    constructor; [| exact (IH _ Hops')].
    destruct (format_quote_fields _ _ Hq) as (symbol & bid & ask & Hs & Hb & Hk).
    destruct (update_index_symbol_id _ _ _ Hop) as (url & Hurl & _).
    exists symbol, bid, ask, url. repeat split; assumption.
Qed.

(** X10.  A batch that is empty or holds only [None] entries is not skipped:
    [store_quotes] calls the index bulk write with an empty list of
    operations.  When the driver answers that call with [InvalidOperation],
    the exception leaves [store_quotes] before any fact insert, and it leaves
    [fetch_quote], which has no clause for it. *)
Theorem blank_batch_reaches_the_index_write (a : attempt) (w : list attempt)
    (symbols : string) (cooldown : Q) (d : dict) (raw : list value) :
  symbols <> "__DONE" ->
  api_reply a = inr (VDict d) ->
  dict_get "results" d = Some (VList raw) ->
  Forall (fun quote => quote = VNone) raw ->
  index_reply a = Some InvalidOperation ->
  store_quotes a (VList raw)
  = ([EvPrint (LogQuotes []); EvIndexBulkWrite []], inl InvalidOperation) /\
  fetch_quote (a :: w) symbols cooldown
  = ([EvQuoteData symbols; EvPrint (LogQuotes []); EvIndexBulkWrite []],
     Raised InvalidOperation).
Proof.
  intros Hne Hres Hresults Hblank Hidx.
  assert (Hnone : filter not_none raw = []).
  { clear - Hblank. induction Hblank as [| q qs Hq _ IH]; simpl.
    - reflexivity.
    - subst q. exact IH. }
  assert (Hstore : store_quotes a (VList raw)
                   = ([EvPrint (LogQuotes []); EvIndexBulkWrite []],
                      inl InvalidOperation)).
  { rewrite store_quotes_stages, Hnone, Hidx. reflexivity. }
  split; [exact Hstore |].
  rewrite (fetch_quote_step _ _ _ _ Hne),
    (quote_try_with_results _ _ _ _ _ Hres Hresults), Hstore.
  reflexivity.
Qed.

(** X16.  Only a batch-write error of the fact insert is absorbed: any other
    exception out of [insert_many] leaves [store_quotes], after the index
    write has been made. *)
Theorem store_quotes_other_insert_failure_propagates (a : attempt)
    (raw : list value) (e : exn) (ord : bool) (docs : list value) :
  insert_reply a = Some e ->
  (forall errs, e <> BulkWriteError errs) ->
  In (EvInsertMany ord docs) (trace (store_quotes a (VList raw))) ->
  exists formatted ops,
    store_quotes a (VList raw)
    = ([EvPrint (LogQuotes formatted); EvIndexBulkWrite ops;
        EvInsertMany false docs],
       inl e).
Proof.
  intros Hins Hother Hin. unfold trace in Hin.
  destruct (store_quotes_insert_inv _ _ _ _ Hin)
    as (_ & _ & _ & formatted & ops & _ & _ & Heq).
  rewrite Hins, (report_write_errors_other _ Hother) in Heq.
  exists formatted, ops. rewrite Heq. reflexivity.
Qed.

(** X20.  When [store_quotes] reaches the fact insert, the index operations
    and the fact documents line up: as many of each, and the i-th document
    carries the instrument id the i-th operation is keyed by.  The projection
    is assumed not to bring an [instrument_id] field. *)
Theorem index_ops_and_facts_line_up (a : attempt) (raw : list value)
    (ord : bool) (docs : list value) :
  (forall q p, pluck DESIRED_QUOTE_KEYS q = inr p ->
               dict_get "instrument_id" p = None) ->
  In (EvInsertMany ord docs) (trace (store_quotes a (VList raw))) ->
  exists ops,
    In (EvIndexBulkWrite ops) (trace (store_quotes a (VList raw))) /\
    length ops = length docs /\
    Forall2
      (fun op doc =>
         subscript doc "instrument_id" = inr (VStr (uo_instrument_id op)))
      ops docs.
Proof.
  intros Hpluck Hin. unfold trace in *.
  destruct (store_quotes_insert_inv _ _ _ _ Hin)
    as (_ & _ & Hdocs & formatted & ops & _ & Hops & Heq).
  exists ops. split; [rewrite Heq; right; left; reflexivity |].
  apply map_raising_Forall2 in Hdocs. apply map_raising_Forall2 in Hops.
  assert (Hall : Forall2
            (fun op doc =>
               subscript doc "instrument_id" = inr (VStr (uo_instrument_id op)))
            ops docs).
  { refine (Forall2_through _ _ _ _ _ _ _ Hops Hdocs).
    intros q op doc Hop Hdoc. cbn beta in Hop, Hdoc.
    destruct (update_index_symbol_id _ _ _ Hop) as (url & Hurl & Hid).
    destruct (map_quote_id _ _ Hpluck Hdoc)
      as (_ & url' & id & Hurl' & Hid' & Hget).
    rewrite Hurl in Hurl'. injection Hurl' as <-.
    rewrite Hid in Hid'. injection Hid' as <-. exact Hget. }
  split; [exact (Forall2_length Hall) | exact Hall].
Qed.

Lemma dict_get_in (k : string) (v : value) (d : dict) :
  dict_get k d = Some v -> In (k, v) d.
Proof.
  induction d as [| [k' v'] d IH]; simpl; intro H.
  - discriminate H.
  - destruct (String.eqb k k') eqn:E.
    + apply String.eqb_eq in E. injection H as <-. subst k'. left. reflexivity.
    + right. apply IH. exact H.
Qed.

Lemma dict_update_get_present (base extra : dict) (k : string) (v : value) :
  NoDup (dict_keys extra) ->
  dict_get k extra = Some v ->
  dict_get k (dict_update base extra) = Some v.
Proof.
  intros Hnd Hget. apply dict_get_in in Hget.
  destruct (in_split _ _ Hget) as (l1 & l2 & ->).
  apply dict_update_last_wins.
  unfold dict_keys in *. rewrite map_app in Hnd. cbn [map fst] in Hnd.
  apply NoDup_remove_2 in Hnd. intro Hin. apply Hnd.
  apply in_or_app. right. exact Hin.
Qed.

(** X14.  The document [map_quote] builds passes the projected fields through
    unchanged, except [updated_at], which holds the parsed value of the
    projected one.  The projection is a dict, so its keys are distinct. *)
Theorem map_quote_passes_the_projection_through (quote doc : value)
    (p : dict) :
  pluck DESIRED_QUOTE_KEYS quote = inr p ->
  NoDup (dict_keys p) ->
  map_quote quote = inr doc ->
  (forall k, k <> "updated_at" -> k <> "instrument_id" ->
             subscript doc k = subscript (VDict p) k) /\
  exists raw parsed,
    dict_get "updated_at" p = Some raw /\
    parse_updated_at raw = inr parsed /\
    subscript doc "updated_at" = inr parsed.
Proof.
  intros Hp Hnd. unfold map_quote. intro H.
  destruct (subscript quote "instrument") as [e | url]; cbn [rbind] in H;
    [discriminate |].
  destruct (parse_instrument_url url) as [e | id]; cbn [rbind] in H;
    [discriminate |].
  rewrite Hp in H. cbn [rbind] in H.
  remember (dict_update [("instrument_id", VStr id)] p) as plucked eqn:Hpl.
  destruct (subscript (VDict plucked) "updated_at") as [e | raw] eqn:Hraw;
    cbn [rbind] in H; [discriminate |].
  destruct (parse_updated_at raw) as [e | parsed] eqn:Hparse;
    cbn [rbind] in H; [discriminate |].
  injection H as <-. split.
  - intros k Hk1 Hk2. unfold subscript.
    rewrite (dict_get_set_other k "updated_at") by exact Hk1.
    subst plucked. destruct (dict_get k p) as [v |] eqn:Hk.
    + rewrite (dict_update_get_present _ _ _ _ Hnd Hk). reflexivity.
    + rewrite (dict_get_update_absent _ _ _ Hk). simpl.
      apply String.eqb_neq in Hk2. rewrite Hk2. reflexivity.
  - exists raw, parsed. split; [| split; [exact Hparse |]].
    + unfold subscript in Hraw. subst plucked.
      destruct (dict_get "updated_at" p) as [v |] eqn:Hk.
      * rewrite (dict_update_get_present _ _ _ _ Hnd Hk) in Hraw.
        injection Hraw as <-. reflexivity.
      * rewrite (dict_get_update_absent _ _ _ Hk) in Hraw.
        simpl in Hraw. discriminate Hraw.
    + unfold subscript. rewrite dict_get_set_same. reflexivity.
Qed.



End StoreMore.

(** ** The consumer *)

Section Consumer.

Context {U : Utils}.

Lemma start_consuming_returned (work_cb : callback) (cooldown : Q)
    (d : delivery) (ds : list delivery) :
  snd (handle_work work_cb cooldown d) = Returned ->
  start_consuming work_cb cooldown (d :: ds)
  = (fst (handle_work work_cb cooldown d)
       ++ fst (start_consuming work_cb cooldown ds),
     snd (start_consuming work_cb cooldown ds)).
Proof.
  intro H. cbn [start_consuming].
  destruct (handle_work work_cb cooldown d) as [t f]. simpl in H. subst f.
  destruct (start_consuming work_cb cooldown ds). reflexivity.
Qed.

Lemma start_consuming_raised (work_cb : callback) (cooldown : Q)
    (d : delivery) (ds : list delivery) (e : exn) :
  snd (handle_work work_cb cooldown d) = Raised e ->
  start_consuming work_cb cooldown (d :: ds)
  = (fst (handle_work work_cb cooldown d), Crashed e).
Proof.
  intro H. cbn [start_consuming].
  destruct (handle_work work_cb cooldown d) as [t f]. simpl in H. subst f.
  reflexivity.
Qed.

Lemma start_consuming_mode_events (m : mode) (cooldown : Q)
    (ds : list delivery) :
  Forall (mode_event m)
    (fst (start_consuming (fst (fst (WORK_CBS m))) cooldown ds)).
Proof.
  induction ds as [| [body w] ds IH]; [constructor |].
  assert (Hd : Forall (mode_event m)
                 (fst (handle_work (fst (fst (WORK_CBS m))) cooldown (body, w)))).
  { unfold handle_work. cbn [fst snd]. destruct m; cbn [WORK_CBS fst].
    - eapply Forall_impl; [| apply (fetch_quote_quote_events w body cooldown)].
      intros ev Hev. exists body. exact Hev.
    - eapply Forall_impl;
        [| apply (fetch_popularity_popularity_events w body cooldown)].
      intros ev Hev. exists body. exact Hev. }
  cbn [start_consuming].
  destruct (handle_work (fst (fst (WORK_CBS m))) cooldown (body, w))
    as [t [| e |]]; cbn [fst] in *; try exact Hd.
  destruct (start_consuming (fst (fst (WORK_CBS m))) cooldown ds) as [t' f].
  cbn [fst] in *. apply Forall_app. split; assumption.
Qed.

(** X21.  [cli] opens with the same calls in both modes and then serves one
    mode only: it reads the collection and the queue [WORK_CBS] gives for the
    mode (quotes from the queue [symbols] into [quotes], popularity from the
    queue [instrument_ids] into [popularity]), consumes without
    acknowledgement, and every worker event that follows belongs to that
    mode: a quote worker never calls the popularity endpoint or setter, a
    popularity worker never calls the quote endpoint or setter and never
    writes the index collection. *)
Theorem cli_serves_one_mode (m : mode) (host : string) (port : Z)
    (cooldown : Q) (ds : list delivery) :
  exists t,
    cli m host port cooldown ds
    = ([CliPrintUnlocking; CliUnlockCache; CliConnect host port; CliChannel;
        CliGetDb;
        CliCollection (match m with
                       | quote_mode => "quotes"
                       | popularity_mode => "popularity"
                       end);
        CliQueueDeclare (match m with
                         | quote_mode => "symbols"
                         | popularity_mode => "instrument_ids"
                         end);
        CliBasicConsume (match m with
                         | quote_mode => "symbols"
                         | popularity_mode => "instrument_ids"
                         end) true]
         ++ map CliWorker t,
       snd (cli m host port cooldown ds)) /\
    Forall (mode_event m) t.
Proof.
  exists (fst (start_consuming (fst (fst (WORK_CBS m))) cooldown ds)).
  split; [| apply start_consuming_mode_events].
  unfold cli. destruct m; cbn [WORK_CBS fst].
  - destruct (start_consuming fetch_quote cooldown ds). reflexivity.
  - destruct (start_consuming fetch_popularity cooldown ds). reflexivity.
Qed.

(** X22.  The sentinel does not end the consumer: after [__DONE] the setter of
    the mode has been called and the deliveries that follow are handled as
    before. *)
Theorem consumer_outlives_the_sentinel (m : mode) (cooldown : Q)
    (w : list attempt) (ds : list delivery) :
  start_consuming (fst (fst (WORK_CBS m))) cooldown (("__DONE", w) :: ds)
  = (match m with
     | quote_mode => [EvPrint LogQuoteDone; EvSetQuotesFinished]
     | popularity_mode =>
         [EvPrint LogPopularityDone; EvSetPopularitiesFinished]
     end
       ++ fst (start_consuming (fst (fst (WORK_CBS m))) cooldown ds),
     snd (start_consuming (fst (fst (WORK_CBS m))) cooldown ds)).
Proof.
  destruct m; cbn [WORK_CBS fst].
  - rewrite start_consuming_returned; unfold handle_work; cbn [fst snd];
      rewrite fetch_quote_sentinel; reflexivity.
  - rewrite start_consuming_returned; unfold handle_work; cbn [fst snd];
      rewrite fetch_popularity_sentinel; reflexivity.
Qed.

(** X23.  Nothing around [work_cb] catches: the first delivery whose handling
    raises ends the consumer with that exception, after the deliveries before
    it were handled in order, and no later delivery is handled. *)
Theorem consumer_stops_at_the_first_exception (m : mode) (cooldown : Q)
    (before after : list delivery) (d : delivery) (e : exn) :
  Forall
    (fun d' => snd (handle_work (fst (fst (WORK_CBS m))) cooldown d')
               = Returned)
    before ->
  snd (handle_work (fst (fst (WORK_CBS m))) cooldown d) = Raised e ->
  start_consuming (fst (fst (WORK_CBS m))) cooldown (before ++ d :: after)
  = (concat (map (fun d' =>
                    fst (handle_work (fst (fst (WORK_CBS m))) cooldown d'))
               before)
       ++ fst (handle_work (fst (fst (WORK_CBS m))) cooldown d),
     Crashed e).
Proof.
  intros Hbefore Hd.
  induction Hbefore as [| d' before Hd' _ IH].
  - simpl app. simpl concat. apply start_consuming_raised. exact Hd.
  - change ((d' :: before) ++ d :: after) with (d' :: (before ++ d :: after)).
    rewrite (start_consuming_returned _ _ _ _ Hd'), IH.
    cbn [map concat fst snd]. rewrite app_assoc. reflexivity.
Qed.

End Consumer.

(** ** Rate limits, in general *)

Section RateLimits.

Context {U : Utils}.

(** X18.  A response without [results] whose [detail] is truthy and parses:
    [fetch_quote] prints the cooldown, sleeps exactly the parsed seconds and
    runs again on the same symbols with the same pacing delay. *)
Theorem fetch_quote_rate_limit_is_retried (a : attempt) (w : list attempt)
    (symbols : string) (cooldown : Q) (d : dict) (detail : value) (s : Q) :
  symbols <> "__DONE" ->
  api_reply a = inr (VDict d) ->
  dict_get "results" d = None ->
  dict_get "detail" d = Some detail ->
  truthy detail = true ->
  parse_throttle_res detail = inr s ->
  fetch_quote (a :: w) symbols cooldown
  = ([EvQuoteData symbols; EvPrint (LogQuoteCooldown s); EvSleep s]
       ++ trace (fetch_quote w symbols cooldown),
     snd (fetch_quote w symbols cooldown)).
Proof. exact (quote_rate_limited_retries a w symbols cooldown d detail s). Qed.

(** X19.  A response without [results] in [fetch_popularity]: whatever else it
    holds, a [detail] included, the entry point prints it, sleeps 120 seconds
    and returns after that single API call. *)
Theorem fetch_popularity_without_results_is_abandoned (a : attempt)
    (w : list attempt) (ids : string) (cooldown : Q) (d : dict) :
  ids <> "__DONE" ->
  api_reply a = inr (VDict d) ->
  dict_get "results" d = None ->
  fetch_popularity (a :: w) ids cooldown
  = ([EvGetUrl (popularity_url ids);
      EvPrint (LogUnexpectedPopularity (VDict d));
      EvSleep (seconds_of 120)],
     Returned) /\
  count is_api_call (trace (fetch_popularity (a :: w) ids cooldown)) = 1%nat.
Proof.
  intros Hne Hres Hnores.
  rewrite (popularity_missing_results_abandons a w ids cooldown d
             Hne Hres Hnores).
  split; reflexivity.
Qed.

(** X24.  A truthy [detail] that [parse_throttle_res] cannot read: the
    exception is raised inside the [KeyError] clause of [fetch_quote] and
    leaves the entry point, before any sleep. *)
Theorem fetch_quote_unreadable_detail_escapes (a : attempt)
    (w : list attempt) (symbols : string) (cooldown : Q) (d : dict)
    (detail : value) (e : exn) :
  symbols <> "__DONE" ->
  api_reply a = inr (VDict d) ->
  dict_get "results" d = None ->
  dict_get "detail" d = Some detail ->
  truthy detail = true ->
  parse_throttle_res detail = inl e ->
  fetch_quote (a :: w) symbols cooldown = ([EvQuoteData symbols], Raised e).
Proof.
  intros Hne Hres Hnores Hdetail Htruthy Hparse.
  rewrite (fetch_quote_step _ _ _ _ Hne).
  unfold quote_try, quote_except, bound_res.
  rewrite Hres. simpl. rewrite Hnores. simpl.
  rewrite Hdetail. simpl. rewrite Htruthy. simpl.
  rewrite Hdetail. simpl. rewrite Hparse. reflexivity.
Qed.

End RateLimits.

(** ** The further theorems at concrete inputs *)

Section MoreWitnesses.

#[local] Existing Instance SpecUtils.utils.

Lemma aapl_is_no_sentinel : "AAPL,MSFT" <> "__DONE".
Proof. intro H; discriminate H. Defined.

Lemma ids_are_no_sentinel : "9,2" <> "__DONE".
Proof. intro H; discriminate H. Defined.

Lemma fetch_quote_stores_then_paces_witness :
  fetch_quote [Sample.rows_rejected] "AAPL,MSFT" Sample.one_second
  = ([EvQuoteData "AAPL,MSFT";
      EvPrint (LogQuotes [VDict [("symbol", VStr "AAPL");
                                 ("bid", VStr "170.10");
                                 ("ask", VStr "170.12")]]);
      EvIndexBulkWrite [Sample.apple_op];
      EvInsertMany false [Sample.apple_doc]]
       ++ reported_rows [Sample.duplicate_row; Sample.oversized_row]
       ++ [EvSleep Sample.one_second],
     Returned).
Proof.
  exact (fetch_quote_stores_then_paces Sample.rows_rejected []
           "AAPL,MSFT" Sample.one_second
           [("results", VList Sample.batch)] Sample.batch _
           [Sample.apple_op] [Sample.apple_doc]
           (Some [Sample.duplicate_row; Sample.oversized_row])
           aapl_is_no_sentinel eq_refl eq_refl eq_refl eq_refl eq_refl
           eq_refl eq_refl).
Defined.

Lemma fetch_popularity_stores_then_paces_witness :
  fetch_popularity [Sample.answers Sample.popular] "9,2" Sample.one_second
  = ([EvGetUrl (popularity_url "9,2");
      EvPrint (LogPopularityMap Cases.nine_and_two);
      EvInsertMany true
        (map (fun kv => popularity_document 7 (fst kv) (snd kv))
           Cases.nine_and_two);
      EvSleep Sample.one_second],
     Returned).
Proof.
  exact (fetch_popularity_stores_then_paces (Sample.answers Sample.popular) []
           "9,2" Sample.one_second _ _ Cases.popular_items Cases.nine_and_two
           ids_are_no_sentinel eq_refl eq_refl eq_refl eq_refl eq_refl).
Defined.

Lemma fetch_popularity_insert_failure_escapes_witness :
  snd (fetch_popularity [Cases.popular_refused] "9,2" Sample.one_second)
  = Raised (BulkWriteError [Sample.oversized_row]).
Proof.
  exact (f_equal snd
           (fetch_popularity_insert_failure_escapes Cases.popular_refused []
              "9,2" Sample.one_second _ _ Cases.popular_items
              Cases.nine_and_two (BulkWriteError [Sample.oversized_row])
              ids_are_no_sentinel eq_refl eq_refl eq_refl eq_refl eq_refl
              eq_refl)).
Defined.

Lemma fetch_quote_when_the_call_raises_witness :
  fetch_quote [Sample.raises KeyError] "AAPL,MSFT" Sample.one_second
  = ([EvQuoteData "AAPL,MSFT"], Raised UnboundLocalError).
Proof.
  exact (fetch_quote_when_the_call_raises (Sample.raises KeyError) []
           "AAPL,MSFT" Sample.one_second KeyError
           aapl_is_no_sentinel eq_refl).
Defined.

Lemma fetch_popularity_when_the_call_raises_witness :
  fetch_popularity [Sample.raises ConnectionError] "9,2" Sample.one_second
  = ([EvGetUrl (popularity_url "9,2")], Raised ConnectionError).
Proof.
  exact (fetch_popularity_when_the_call_raises
           (Sample.raises ConnectionError) [] "9,2" Sample.one_second
           ConnectionError ids_are_no_sentinel eq_refl).
Defined.

Lemma fetch_quote_unknown_response_is_abandoned_witness :
  fetch_quote [Sample.answers Cases.empty_response; Sample.quoted]
    "AAPL,MSFT" Sample.one_second
  = ([EvQuoteData "AAPL,MSFT";
      EvPrint (LogUnexpectedQuote Cases.empty_response);
      EvSleep (seconds_of 120)],
     Returned).
Proof.
  exact (fetch_quote_unknown_response_is_abandoned
           (Sample.answers Cases.empty_response) [Sample.quoted]
           "AAPL,MSFT" Sample.one_second [] aapl_is_no_sentinel
           eq_refl eq_refl eq_refl).
Defined.


Lemma fetch_popularity_garbage_is_retried_witness :
  fetch_popularity [Sample.answers (VList []); Sample.answers Sample.popular]
    "9,2" Sample.one_second
  = ([EvGetUrl (popularity_url "9,2"); EvPrint LogGarbage;
      EvSleep (seconds_of 30)]
       ++ fst (fetch_popularity [Sample.answers Sample.popular]
                 "9,2" Sample.one_second),
     snd (fetch_popularity [Sample.answers Sample.popular]
            "9,2" Sample.one_second)).
Proof.
  exact (fetch_popularity_garbage_is_retried (Sample.answers (VList []))
           [Sample.answers Sample.popular] "9,2" Sample.one_second (VList [])
           ids_are_no_sentinel eq_refl (or_introl eq_refl)).
Defined.

Lemma fetch_popularity_bad_entry_escapes_witness :
  fetch_popularity [Sample.answers Cases.no_count] "9,2" Sample.one_second
  = ([EvGetUrl (popularity_url "9,2"); EvPrint (LogRes Cases.no_count)],
     Raised KeyError).
Proof.
  exact (fetch_popularity_bad_entry_escapes (Sample.answers Cases.no_count)
           [] "9,2" Sample.one_second _ _ _ ids_are_no_sentinel
           eq_refl eq_refl eq_refl eq_refl eq_refl eq_refl).
Defined.

Lemma popularity_insert_needs_the_whole_fold_witness :
  exists d results items m,
    api_reply (Sample.answers Sample.popular) = inr (VDict d) /\
    dict_get "results" d = Some results /\
    py_iter results = inr items /\
    reduce reduce_popularity items [] = inr m /\
    Forall
      (fun datum =>
         exists url n,
           subscript datum "instrument" = inr url /\
           subscript datum "num_open_positions" = inr n)
      items /\
    true = true /\
    map (fun kv => popularity_document 7 (fst kv) (snd kv)) Cases.nine_and_two
    = map (fun kv => popularity_document
                       (clock (Sample.answers Sample.popular))
                       (fst kv) (snd kv)) m.
Proof.
  apply (popularity_insert_needs_the_whole_fold
           (Sample.answers Sample.popular) "9,2" Sample.one_second).
  right. right. left. reflexivity.
Defined.

Lemma store_quotes_writes_only_whole_batches_witness :
  Forall
    (fun quote =>
       exists symbol bid ask url,
         subscript quote "symbol" = inr symbol /\
         subscript quote "bid_price" = inr bid /\
         subscript quote "ask_price" = inr ask /\
         subscript quote "instrument" = inr url)
    (filter not_none Sample.batch).
Proof.
  apply (store_quotes_writes_only_whole_batches Sample.quoted Sample.batch
           (EvIndexBulkWrite [Sample.apple_op])).
  - right. left. reflexivity.
  - reflexivity.
Defined.

Lemma blank_batch_reaches_the_index_write_witness :
  fetch_quote
    [mk_attempt (inr (VDict [("results", VList [VNone; VNone])])) 7
       (Some InvalidOperation) None]
    "AAPL,MSFT" Sample.one_second
  = ([EvQuoteData "AAPL,MSFT"; EvPrint (LogQuotes []); EvIndexBulkWrite []],
     Raised InvalidOperation).
Proof.
  refine (proj2 (blank_batch_reaches_the_index_write
                   (mk_attempt (inr (VDict [("results", VList [VNone; VNone])]))
                      7 (Some InvalidOperation) None)
                   [] "AAPL,MSFT" Sample.one_second
                   [("results", VList [VNone; VNone])] [VNone; VNone]
                   aapl_is_no_sentinel eq_refl eq_refl _ eq_refl)).
  constructor; [reflexivity |]. constructor; [reflexivity | constructor].
Defined.

Lemma store_quotes_other_insert_failure_propagates_witness :
  exists formatted ops,
    store_quotes Cases.insert_refused (VList Sample.batch)
    = ([EvPrint (LogQuotes formatted); EvIndexBulkWrite ops;
        EvInsertMany false [Sample.apple_doc]],
       inl ConnectionError).
Proof.
  apply (store_quotes_other_insert_failure_propagates Cases.insert_refused
           Sample.batch ConnectionError false [Sample.apple_doc]).
  - reflexivity.
  - intros errs H. discriminate H.
  - right. right. left. reflexivity.
Defined.

Lemma index_ops_and_facts_line_up_witness :
  exists ops,
    In (EvIndexBulkWrite ops)
      (trace (store_quotes Sample.quoted (VList Sample.batch))) /\
    length ops = length [Sample.apple_doc] /\
    Forall2
      (fun op doc =>
         subscript doc "instrument_id" = inr (VStr (uo_instrument_id op)))
      ops [Sample.apple_doc].
Proof.
  apply (index_ops_and_facts_line_up Sample.quoted Sample.batch false
           [Sample.apple_doc]).
  - intros q p. destruct q; try (intro H; discriminate H).
    intro H. injection H as <-. simpl.
    destruct (dict_get "symbol" d); destruct (dict_get "bid_price" d);
      destruct (dict_get "ask_price" d); destruct (dict_get "updated_at" d);
      reflexivity.
  - right. right. left. reflexivity.
Defined.

Lemma map_quote_passes_the_projection_through_witness :
  subscript Sample.apple_doc "bid_price" = inr (VStr "170.10") /\
  subscript Sample.apple_doc "updated_at" = inr (VDatetime 20190301120000).
Proof.
  assert (Hnd : NoDup (dict_keys [("symbol", VStr "AAPL");
                                  ("bid_price", VStr "170.10");
                                  ("ask_price", VStr "170.12");
                                  ("updated_at",
                                   VStr "2019-03-01T12:00:00Z")])).
  { repeat constructor; simpl; intuition discriminate. }
  destruct (map_quote_passes_the_projection_through (U := SpecUtils.utils)
              Sample.apple
              Sample.apple_doc
              [("symbol", VStr "AAPL"); ("bid_price", VStr "170.10");
               ("ask_price", VStr "170.12");
               ("updated_at", VStr "2019-03-01T12:00:00Z")]
              eq_refl Hnd eq_refl)
    as [Hpass (raw & parsed & Hraw & Hparse & Hupd)].
  split.
  - rewrite (Hpass "bid_price"); [reflexivity | |]; intro H; discriminate H.
  - injection Hraw as <-. injection Hparse as <-. exact Hupd.
Defined.


Lemma fetch_quote_rate_limit_is_retried_witness :
  fetch_quote [Sample.answers Sample.throttled; Sample.quoted]
    "AAPL,MSFT" Sample.one_second
  = ([EvQuoteData "AAPL,MSFT";
      EvPrint (LogQuoteCooldown (seconds_of 5));
      EvSleep (seconds_of 5)]
       ++ trace (fetch_quote [Sample.quoted] "AAPL,MSFT" Sample.one_second),
     snd (fetch_quote [Sample.quoted] "AAPL,MSFT" Sample.one_second)).
Proof.
  exact (fetch_quote_rate_limit_is_retried (Sample.answers Sample.throttled)
           [Sample.quoted] "AAPL,MSFT" Sample.one_second _ _ _
           aapl_is_no_sentinel eq_refl eq_refl eq_refl eq_refl eq_refl).
Defined.

Lemma fetch_popularity_without_results_is_abandoned_witness :
  count is_api_call
    (trace (fetch_popularity
              [Sample.answers Sample.throttled; Sample.answers Sample.popular]
              "9,2" Sample.one_second)) = 1%nat.
Proof.
  exact (proj2 (fetch_popularity_without_results_is_abandoned
                  (Sample.answers Sample.throttled)
                  [Sample.answers Sample.popular] "9,2" Sample.one_second _
                  ids_are_no_sentinel eq_refl eq_refl)).
Defined.

Lemma fetch_quote_unreadable_detail_escapes_witness :
  fetch_quote
    [Sample.answers (VDict [("detail", VStr "Try again later.")])]
    "AAPL,MSFT" Sample.one_second
  = ([EvQuoteData "AAPL,MSFT"], Raised ValueError).
Proof.
  exact (fetch_quote_unreadable_detail_escapes
           (Sample.answers (VDict [("detail", VStr "Try again later.")]))
           [] "AAPL,MSFT" Sample.one_second _ _ ValueError
           aapl_is_no_sentinel eq_refl eq_refl eq_refl eq_refl eq_refl).
Defined.

Lemma consumer_stops_at_the_first_exception_witness :
  start_consuming fetch_quote Sample.one_second
    [("__DONE", []);
     ("AAPL,MSFT", [Sample.raises ConnectionError]);
     ("GOOG", [Sample.quoted])]
  = ([EvPrint LogQuoteDone; EvSetQuotesFinished; EvQuoteData "AAPL,MSFT"],
     Crashed ConnectionError).
Proof.
  refine (consumer_stops_at_the_first_exception quote_mode Sample.one_second
            [("__DONE", [])] [("GOOG", [Sample.quoted])]
            ("AAPL,MSFT", [Sample.raises ConnectionError]) ConnectionError
            _ eq_refl).
  constructor; [reflexivity | constructor].
Defined.

End MoreWitnesses.

(** ** Retries and the recursion limit *)

Section LimitClaims.

Context {U : Utils}.













End LimitClaims.

Section LimitRuns.

#[local] Existing Instance SpecUtils.utils.




End LimitRuns.
